(** * KMU-Freight lead-capture backend: double opt-in workflow

    A shallow embedding of [main.py] (FastAPI application) together with the
    parts of the Python standard library it calls ([int], [os.getenv],
    [secrets.token_urlsafe], [urllib.parse.urlencode]), followed by the
    properties of the submission and confirmation endpoints.

    Python [str] values are modelled as [string], holding the UTF-8 bytes of
    the text; [bytes] values as [list byte]; dictionaries as [gmap string _].
    Code that reads the environment, draws randomness, prints, talks to the
    mail server or to the document store is written in a state-and-exception
    monad over an explicit [World]. *)

From Stdlib Require Import ZArith NArith Lia String Ascii List.
From Stdlib.Strings Require Import Byte.
From stdpp Require Import base option gmap strings pretty list relations.

Open Scope string_scope.

(** ** Python values and exceptions *)

Inductive Value :=
| VNone
| VBool (b : bool)
| VStr (s : string).

#[global] Instance Value_eq_dec : EqDecision Value.
Proof. solve_decision. Defined.

Abbreviation PyDict := (gmap string Value).

Inductive Exn :=
| Exception (msg : string)
| ValueError (msg : string)
| HTTPException (status_code : Z) (detail : string).

Definition nl : string := String "010"%char EmptyString.

Module Py.

(** [str(e)] *)
Definition str_exn (e : Exn) : string :=
  match e with
  | Exception msg => msg
  | ValueError msg => msg
  | HTTPException code detail => pretty code +:+ ": " +:+ detail
  end.

(** [str(b)] as an f-string field renders it. *)
Definition str_bool (b : bool) : string := if b then "True" else "False".

(** Truth value of an [Optional[str]]: [None] and the empty string are
    false. *)
Definition truthy (o : option string) : bool :=
  match o with
  | Some (String _ _) => true
  | _ => false
  end.

(** [x or d] on an [Optional[str]]. *)
Definition or_else (o : option string) (d : string) : string :=
  match o with
  | Some (String c r) => String c r
  | _ => d
  end.

Definition in_range (lo hi : nat) (c : ascii) : bool :=
  let n := nat_of_ascii c in (lo <=? n)%nat && (n <=? hi)%nat.

Definition is_digit (c : ascii) : bool := in_range 48 57 c.
Definition is_upper (c : ascii) : bool := in_range 65 90 c.
Definition is_lower (c : ascii) : bool := in_range 97 122 c.

(** The white space [int] skips around a number: tab, line feed, vertical
    tab, form feed, carriage return and space. *)
Definition is_space (c : ascii) : bool := in_range 9 13 c || Ascii.eqb c " ".

Fixpoint lstrip_space (s : string) : string :=
  match s with
  | String c r => if is_space c then lstrip_space r else s
  | EmptyString => EmptyString
  end.

Fixpoint rstrip_space (s : string) : string :=
  match s with
  | EmptyString => EmptyString
  | String c r =>
      match rstrip_space r with
      | EmptyString => if is_space c then EmptyString else String c EmptyString
      | r' => String c r'
      end
  end.

Inductive DigitState := AtStart | AfterDigit | AfterUnderscore.

(** Decimal digits with single underscores allowed between digits. *)
Fixpoint digits_value (st : DigitState) (acc : Z) (s : string) : option Z :=
  match s with
  | EmptyString =>
      match st with AfterDigit => Some acc | _ => None end
  | String c r =>
      if is_digit c then
        digits_value AfterDigit (10 * acc + (Z.of_nat (nat_of_ascii c) - 48)) r
      else if Ascii.eqb c "_" then
        match st with
        | AfterDigit => digits_value AfterUnderscore acc r
        | _ => None
        end
      else None
  end.

Fixpoint count_digits (s : string) : N :=
  match s with
  | EmptyString => 0
  | String c r => if is_digit c then N.succ (count_digits r) else count_digits r
  end.

(** [sys.get_int_max_str_digits()], at its default. *)
Definition max_str_digits : N := 4300.

(** A number of at most [max_str_digits] digits. *)
Definition decimal (t : string) : option Z :=
  if (count_digits t <=? max_str_digits)%N then digits_value AtStart 0 t else None.

(** [int(s)] for a string [s], base 10: surrounding white space is dropped,
    then an optional sign, then the digits, at most 4300 of them. [None]
    stands for [ValueError]. Text with a character outside ASCII is taken as
    no number: the digits and spaces of other scripts, which [int] reads as
    well, are not modelled. *)
Definition int_of_str (s : string) : option Z :=
  match rstrip_space (lstrip_space s) with
  | String "-" r => Z.opp <$> decimal r
  | String "+" r => decimal r
  | t => decimal t
  end.

End Py.

(** ** Text by characters and by lines *)

Module PyText.

(** A byte that continues a UTF-8 character begun before it. *)
Definition is_continuation (c : ascii) : bool := Py.in_range 128 191 c.

(** [len(s)]: the number of characters of the text. *)
Fixpoint len (s : string) : nat :=
  match s with
  | EmptyString => 0
  | String c r => if is_continuation c then len r else S (len r)
  end.

(** [s[:n]]: the first [n] characters of the text, each with all its
    bytes. *)
Fixpoint take_chars (n : nat) (s : string) : string :=
  match s with
  | EmptyString => EmptyString
  | String c r =>
      if is_continuation c then String c (take_chars n r)
      else
        match n with
        | 0 => EmptyString
        | S n' => String c (take_chars n' r)
        end
  end.

(** [s[n:]]: the text without its first [n] characters. *)
Fixpoint drop_chars (n : nat) (s : string) : string :=
  match s with
  | EmptyString => EmptyString
  | String c r =>
      if is_continuation c then drop_chars n r
      else
        match n with
        | 0 => s
        | S n' => drop_chars n' r
        end
  end.

(** The one-byte line boundaries of [str.splitlines] other than the
    carriage return: line feed, vertical tab, form feed and the file, group
    and record separators. *)
Definition is_break_byte (c : ascii) : bool :=
  Py.in_range 10 12 c || Py.in_range 28 30 c.

(** The text after the first line boundary of [s], if it has one. The
    boundaries are those of [str.splitlines]: the bytes above, a carriage
    return with the line feed that follows it, and the characters U+0085,
    U+2028 and U+2029. *)
Fixpoint after_break (s : string) : option string :=
  match s with
  | EmptyString => None
  | String c r =>
      if Ascii.eqb c "013" then
        Some match r with
             | String c' r' => if Ascii.eqb c' "010" then r' else r
             | EmptyString => r
             end
      else if is_break_byte c then Some r
      else
        match r with
        | String c1 r1 =>
            if Ascii.eqb c "194" && Ascii.eqb c1 "133" then Some r1
            else
              match r1 with
              | String c2 r2 =>
                  if Ascii.eqb c "226" && Ascii.eqb c1 "128"
                     && (Ascii.eqb c2 "168" || Ascii.eqb c2 "169")
                  then Some r2
                  else after_break r
              | EmptyString => after_break r
              end
        | EmptyString => None
        end
  end.


(** [len(s.splitlines()) > 1]: a line boundary with text after it. *)
Definition multi_line (s : string) : bool :=
  match after_break s with
  | Some (String _ _) => true
  | _ => false
  end.

Definition single_quote : ascii := "039"%char.
Definition double_quote : ascii := "034"%char.
Definition backslash : ascii := "092"%char.

Fixpoint contains (c : ascii) (s : string) : bool :=
  match s with
  | EmptyString => false
  | String x r => Ascii.eqb x c || contains c r
  end.

Definition hex_lower (n : nat) : ascii :=
  match String.get n "0123456789abcdef" with
  | Some c => c
  | None => "0"%char
  end.

(** One character as [repr] shows it between the quotes [q]. *)
Definition repr_char (q c : ascii) : string :=
  let n := nat_of_ascii c in
  if Ascii.eqb c backslash then String backslash (String backslash EmptyString)
  else if Ascii.eqb c q then String backslash (String q EmptyString)
  else if Ascii.eqb c "009" then String backslash "t"
  else if Ascii.eqb c "010" then String backslash "n"
  else if Ascii.eqb c "013" then String backslash "r"
  else if (n <? 32)%nat || (n =? 127)%nat then
    String backslash
      (String "x" (String (hex_lower (n / 16)) (String (hex_lower (n mod 16)) EmptyString)))
  else String c EmptyString.

Fixpoint repr_chars (q : ascii) (s : string) : string :=
  match s with
  | EmptyString => EmptyString
  | String c r => repr_char q c +:+ repr_chars q r
  end.

(** [repr(s)] for ASCII text and for text whose other characters are
    printable, which [repr] shows as they are: in single quotes, or in
    double quotes when the text holds a single quote and no double one. *)
Definition repr (s : string) : string :=
  let q := if contains single_quote s && negb (contains double_quote s)
           then double_quote else single_quote in
  String q (repr_chars q s) +:+ String q EmptyString.

(** The run of digits and single underscores a number text starts with:
    the number of its digits, or [None] when an underscore leads, is
    doubled or ends the run. *)
Fixpoint digit_run (st : Py.DigitState) (n : N) (s : string) : option N :=
  match s with
  | EmptyString =>
      match st with Py.AfterUnderscore => None | _ => Some n end
  | String c r =>
      if Py.is_digit c then digit_run Py.AfterDigit (N.succ n) r
      else if Ascii.eqb c "_" then
        match st with
        | Py.AfterDigit => digit_run Py.AfterUnderscore n r
        | _ => None
        end
      else
        match st with Py.AfterUnderscore => None | _ => Some n end
  end.

(** The text of the [ValueError] that [int(s)] raises. *)
Definition int_error_text (s : string) : string :=
  let invalid :=
    "invalid literal for int() with base 10: " +:+ take_chars 200 (repr s) in
  let t := match Py.lstrip_space s with
           | String c r =>
               if Ascii.eqb c "-" || Ascii.eqb c "+" then r else String c r
           | EmptyString => EmptyString
           end in
  match digit_run Py.AtStart 0 t with
  | Some n =>
      if (Py.max_str_digits <? n)%N then
        "Exceeds the limit (4300 digits) for integer string conversion: value has "
        +:+ pretty n
        +:+ " digits; use sys.set_int_max_str_digits() to increase the limit"
      else invalid
  | None => invalid
  end.

End PyText.

(** ** [base64.urlsafe_b64encode] and [bytes.rstrip] *)

Module Base64.

Definition alphabet : string :=
  "ABCDEFGHIJKLMNOPQRSTUVWXYZabcdefghijklmnopqrstuvwxyz0123456789+/".

Definition pad : ascii := "="%char.

Definition char_of_sextet (n : N) : ascii :=
  match String.get (N.to_nat n) alphabet with
  | Some c => c
  | None => pad
  end.

(** The four 6-bit groups of a 24-bit block [a b c]. *)
Definition sextet0 (a : N) : N := N.shiftr a 2.
Definition sextet1 (a b : N) : N :=
  N.lor (N.shiftl (N.land a 3) 4) (N.shiftr b 4).
Definition sextet2 (b c : N) : N :=
  N.lor (N.shiftl (N.land b 15) 2) (N.shiftr c 6).
Definition sextet3 (c : N) : N := N.land c 63.

Fixpoint b64encode (bs : list byte) : string :=
  match bs with
  | [] => EmptyString
  | [a] =>
      let a := Byte.to_N a in
      String (char_of_sextet (sextet0 a))
        (String (char_of_sextet (sextet1 a 0))
           (String pad (String pad EmptyString)))
  | [a; b] =>
      let a := Byte.to_N a in
      let b := Byte.to_N b in
      String (char_of_sextet (sextet0 a))
        (String (char_of_sextet (sextet1 a b))
           (String (char_of_sextet (sextet2 b 0))
              (String pad EmptyString)))
  | a :: b :: c :: rest =>
      let a := Byte.to_N a in
      let b := Byte.to_N b in
      let c := Byte.to_N c in
      String (char_of_sextet (sextet0 a))
        (String (char_of_sextet (sextet1 a b))
           (String (char_of_sextet (sextet2 b c))
              (String (char_of_sextet (sextet3 c)) (b64encode rest))))
  end.

(** [bytes.translate] with the table mapping [+/] to [-_]. *)
Definition urlsafe_char (c : ascii) : ascii :=
  if Ascii.eqb c "+" then "-"%char
  else if Ascii.eqb c "/" then "_"%char
  else c.

Fixpoint translate (f : ascii → ascii) (s : string) : string :=
  match s with
  | EmptyString => EmptyString
  | String c r => String (f c) (translate f r)
  end.

Definition urlsafe_b64encode (bs : list byte) : string :=
  translate urlsafe_char (b64encode bs).

(** [s.rstrip(c)] for a single character [c]. *)
Fixpoint rstrip (c : ascii) (s : string) : string :=
  match s with
  | EmptyString => EmptyString
  | String x r =>
      match rstrip c r with
      | EmptyString => if Ascii.eqb x c then EmptyString else String x EmptyString
      | r' => String x r'
      end
  end.

(** The text [secrets.token_urlsafe] makes of the random bytes [tok]. *)
Definition token_text (tok : list byte) : string :=
  rstrip pad (urlsafe_b64encode tok).

Definition is_urlsafe (c : ascii) : bool :=
  Py.is_upper c || Py.is_lower c || Py.is_digit c
  || Ascii.eqb c "-" || Ascii.eqb c "_".

Fixpoint all_chars (p : ascii → bool) (s : string) : bool :=
  match s with
  | EmptyString => true
  | String c r => p c && all_chars p r
  end.

(** The character a sextet becomes in the URL-safe alphabet. *)
Definition token_char (n : N) : ascii := urlsafe_char (char_of_sextet n).

Fixpoint index_of (c : ascii) (s : string) : N :=
  match s with
  | EmptyString => 0
  | String x r => if Ascii.eqb x c then 0 else N.succ (index_of c r)
  end.

Definition sextet_of_char (c : ascii) : N :=
  index_of c (translate urlsafe_char alphabet).

(** The token text without the detour through padding. *)
Fixpoint unpadded (bs : list byte) : string :=
  match bs with
  | [] => EmptyString
  | [a] =>
      String (token_char (sextet0 (Byte.to_N a)))
        (String (token_char (sextet1 (Byte.to_N a) 0)) EmptyString)
  | [a; b] =>
      String (token_char (sextet0 (Byte.to_N a)))
        (String (token_char (sextet1 (Byte.to_N a) (Byte.to_N b)))
           (String (token_char (sextet2 (Byte.to_N b) 0)) EmptyString))
  | a :: b :: c :: rest =>
      String (token_char (sextet0 (Byte.to_N a)))
        (String (token_char (sextet1 (Byte.to_N a) (Byte.to_N b)))
           (String (token_char (sextet2 (Byte.to_N b) (Byte.to_N c)))
              (String (token_char (sextet3 (Byte.to_N c))) (unpadded rest))))
  end.

(** Every byte, in order. *)
Definition all_bytes : list byte :=
  map (λ n, default x00 (Byte.of_N (N.of_nat n))) (seq 0 256).

End Base64.

(** ** [urllib.parse.quote_plus] and [urlencode] *)

Module Urllib.

(** The characters [quote] never escapes: letters, digits and [_.-~]. *)
Definition always_safe (c : ascii) : bool :=
  Py.is_upper c || Py.is_lower c || Py.is_digit c
  || Ascii.eqb c "_" || Ascii.eqb c "." || Ascii.eqb c "-" || Ascii.eqb c "~".

Definition hex_digit (n : nat) : ascii :=
  match String.get n "0123456789ABCDEF" with
  | Some c => c
  | None => "0"%char
  end.

Definition percent (c : ascii) : string :=
  let n := nat_of_ascii c in
  String "%" (String (hex_digit (n / 16)) (String (hex_digit (n mod 16)) EmptyString)).

Fixpoint mem (c : ascii) (s : string) : bool :=
  match s with
  | EmptyString => false
  | String x r => Ascii.eqb x c || mem c r
  end.

(** [quote(s, safe)]: every byte of the UTF-8 text outside the safe set
    becomes [%XX]. *)
Fixpoint quote (safe : string) (s : string) : string :=
  match s with
  | EmptyString => EmptyString
  | String c r =>
      (if always_safe c || mem c safe then String c EmptyString else percent c)
      +:+ quote safe r
  end.

(** [s.replace(' ', '+')] *)
Definition space_to_plus (c : ascii) : ascii :=
  if Ascii.eqb c " " then "+"%char else c.

Definition quote_plus (s : string) : string :=
  if mem " " s
  then Base64.translate space_to_plus (quote " " s)
  else quote EmptyString s.

(** ['&'.join(l)] *)
Fixpoint join_amp (l : list string) : string :=
  match l with
  | [] => EmptyString
  | [x] => x
  | x :: r => x +:+ "&" +:+ join_amp r
  end.

(** [urlencode(query)] for a dictionary of strings, given as the list of
    its items in insertion order. *)
Definition urlencode (query : list (string * string)) : string :=
  join_amp (map (λ kv, quote_plus kv.1 +:+ "=" +:+ quote_plus kv.2) query).

End Urllib.

(** ** The lead schema and the world the handlers run in *)

(** Modelled from the spec: the schema [Lead] of [schemas.py], which is not
    part of the sources at hand. Its attributes are the ones [main.py] reads
    ([name], [company], [email], [interest], [purpose], [consent],
    [message]); the spec gives them as text fields, a consent flag and an
    optional free-text message. *)
Record Lead := mkLead {
  name : string;
  company : string;
  email : string;
  interest : string;
  purpose : string;
  consent : bool;
  message : option string
}.

Definition value_of_opt (o : option string) : Value :=
  match o with
  | Some s => VStr s
  | None => VNone
  end.

(** [lead.model_dump()] *)
Definition model_dump (lead : Lead) : PyDict :=
  {[ "name" := VStr (name lead);
     "company" := VStr (company lead);
     "email" := VStr (email lead);
     "interest" := VStr (interest lead);
     "purpose" := VStr (purpose lead);
     "consent" := VBool (consent lead);
     "message" := value_of_opt (message lead) ]}.

(** [d.update(u)]: the entries of [u] win. *)
Definition dict_update (d u : PyDict) : PyDict := u ∪ d.

(** The message [_send_email] builds, by what it is given: the values of
    the headers [Subject], [From] and [To], and the text handed to
    [set_content]. *)
Record EmailMessage := mkEmail {
  msg_subject : string;
  msg_from : string;
  msg_to : string;
  msg_content : string
}.

(** A stored document together with the id the store gave it. *)
Abbreviation Collection := (list (string * PyDict)).

(** What the mail library and the SMTP session (reading the addresses of
    the headers, connect, STARTTLS, login, send) do with a message: [None]
    when it is accepted, the exception raised otherwise. *)
Definition Transport : Type :=
  string → Z → string → string → EmailMessage → option Exn.

Record World := mkWorld {
  environ : gmap string string;          (* os.environ *)
  urandom : nat → byte;                  (* the bytes os.urandom hands out *)
  urandom_pos : nat;                     (* how many were drawn so far *)
  db : option (gmap string Collection);  (* database.db, None when absent *)
  stdout : string;
  smtp : Transport;
  outbox : list EmailMessage             (* messages the mail server took *)
}.

Definition set_db (d : option (gmap string Collection)) (w : World) : World :=
  mkWorld (environ w) (urandom w) (urandom_pos w) d (stdout w) (smtp w) (outbox w).

Definition set_stdout (s : string) (w : World) : World :=
  mkWorld (environ w) (urandom w) (urandom_pos w) (db w) s (smtp w) (outbox w).

Definition set_outbox (o : list EmailMessage) (w : World) : World :=
  mkWorld (environ w) (urandom w) (urandom_pos w) (db w) (stdout w) (smtp w) o.

Definition set_urandom_pos (n : nat) (w : World) : World :=
  mkWorld (environ w) (urandom w) n (db w) (stdout w) (smtp w) (outbox w).

(** The world with another environment and another mail server: all that
    the notifier consults. *)
Definition with_mail (env : gmap string string) (tr : Transport) (w : World) : World :=
  mkWorld env (urandom w) (urandom_pos w) (db w) (stdout w) tr (outbox w).

(** ** State and exception monad *)

Definition M (A : Type) : Type := World → World * (Exn + A).

Definition ret {A} (a : A) : M A := λ w, (w, inr a).

Definition raise {A} (e : Exn) : M A := λ w, (w, inl e).

Definition bind {A B} (c : M A) (k : A → M B) : M B :=
  λ w, match c w with
       | (w', inr a) => k a w'
       | (w', inl e) => (w', inl e)
       end.

(** [try: c except Exception as e: h e] *)
Definition try_except {A} (c : M A) (h : Exn → M A) : M A :=
  λ w, match c w with
       | (w', inr a) => (w', inr a)
       | (w', inl e) => h e w'
       end.

Notation "'let*' x ':=' c 'in' k" := (bind c (λ x, k))
  (at level 10, x pattern, c at level 100, k at level 200).

Definition getenv (key : string) : M (option string) :=
  λ w, (w, inr (environ w !! key)).

Definition getenv_default (key dflt : string) : M string :=
  λ w, (w, inr (default dflt (environ w !! key))).

(** [print(s)] *)
Definition print (s : string) : M unit :=
  λ w, (set_stdout (stdout w +:+ s +:+ nl) w, inr tt).

(** [int(s)] *)
Definition int (s : string) : M Z :=
  match Py.int_of_str s with
  | Some z => ret z
  | None => raise (ValueError (PyText.int_error_text s))
  end.

(** The next [n] bytes of the entropy source. *)
Definition next_bytes (n : nat) (w : World) : list byte :=
  map (urandom w) (seq (urandom_pos w) n).

(** [os.urandom(n)] *)
Definition os_urandom (n : nat) : M (list byte) :=
  λ w, (set_urandom_pos (urandom_pos w + n) w, inr (next_bytes n w)).

(** [secrets.token_urlsafe(nbytes)] *)
Definition token_urlsafe (nbytes : nat) : M string :=
  let* tok := os_urandom nbytes in
  ret (Base64.token_text tok).

(** [with smtplib.SMTP(host, port) as server: starttls; login; send_message] *)
Definition smtp_session (host : string) (port : Z) (username password : string)
    (msg : EmailMessage) : M unit :=
  λ w, match smtp w host port username password msg with
       | Some e => (w, inl e)
       | None => (set_outbox (outbox w ++ [msg])%list w, inr tt)
       end.

(** [msg[name] = value]: a value of more than one line is refused. *)
Definition set_header (value : string) : M unit :=
  if PyText.multi_line value
  then raise (ValueError
                "Header values may not contain linefeed or carriage return characters")
  else ret tt.

(** ** [main.py] *)

Definition read_root : PyDict :=
  {[ "message" := VStr "KMU-Freight Backend running" ]}.

(** The text the console fallback prints. *)
Definition fallback_text (subject body to_email : string) : string :=
  "[EMAIL-FALLBACK] To: " +:+ to_email +:+ nl +:+ "Subject: " +:+ subject
  +:+ nl +:+ nl +:+ body.

Definition _send_email (subject body to_email : string) : M unit :=
  let* host := getenv "SMTP_HOST" in
  let* port_text := getenv_default "SMTP_PORT" "587" in
  let* port := int port_text in
  let* username := getenv "SMTP_USERNAME" in
  let* password := getenv "SMTP_PASSWORD" in
  let* admin := getenv_default "ADMIN_EMAIL" "no-reply@kmu-freight.com" in
  let* from_email := getenv_default "SMTP_FROM" admin in
  if negb (Py.truthy host) || negb (Py.truthy username) || negb (Py.truthy password)
  then
    (* Fallback to console log if SMTP not configured *)
    print (fallback_text subject body to_email)
  else
    let* _ := set_header subject in
    let* _ := set_header from_email in
    let* _ := set_header to_email in
    let msg := mkEmail subject from_email to_email body in
    smtp_session (default EmptyString host) port
      (default EmptyString username) (default EmptyString password) msg.

Definition admin_subject : string := "Neuer Warteliste/Lead – KMU‑Freight".

Definition admin_body (lead : Lead) : string :=
  "Name: " +:+ name lead +:+ nl
  +:+ "Firma: " +:+ company lead +:+ nl
  +:+ "E-Mail: " +:+ email lead +:+ nl
  +:+ "Interesse: " +:+ interest lead +:+ nl
  +:+ "Zweck: " +:+ purpose lead +:+ nl
  +:+ "Einwilligung: " +:+ Py.str_bool (consent lead) +:+ nl
  +:+ "Nachricht: " +:+ Py.or_else (message lead) "-" +:+ nl.

Definition notify_admin_waitlist (lead : Lead) : M unit :=
  let* admin_email := getenv_default "ADMIN_EMAIL" "max.salterberg@kmu-freight.com" in
  _send_email admin_subject (admin_body lead) admin_email.

(** Line 69: the link, from the value [base] of [FRONTEND_URL]. *)
Definition confirm_url (base token : string) : string :=
  if Py.truthy (Some base)
  then base +:+ "/confirm?" +:+ Urllib.urlencode [("token", token)]
  else "/confirm?token=" +:+ token.

Definition opt_in_subject : string := "Bitte bestätige deine Anmeldung – KMU‑Freight".

Definition opt_in_body_head : string :=
  "Hallo," +:+ nl +:+ nl
  +:+ "bitte bestätige deine Anmeldung zur Warteliste, indem du auf den folgenden Link klickst:"
  +:+ nl.

Definition opt_in_body_tail : string :=
  nl +:+ nl
  +:+ "Wenn du diese Anfrage nicht gestellt hast, ignoriere diese Nachricht."
  +:+ nl +:+ nl
  +:+ "Viele Grüße" +:+ nl +:+ "KMU‑Freight".

Definition opt_in_body (url : string) : string :=
  opt_in_body_head +:+ url +:+ opt_in_body_tail.

Definition send_double_opt_in (to_email token : string) : M unit :=
  let* base := getenv_default "FRONTEND_URL" EmptyString in
  _send_email opt_in_subject (opt_in_body (confirm_url base token)) to_email.

(** The calls [background_tasks.add_task] defers. *)
Inductive Task :=
| NotifyAdminWaitlist (lead : Lead)
| SendDoubleOptIn (to_email token : string).

Definition run_task (t : Task) : M unit :=
  match t with
  | NotifyAdminWaitlist lead => notify_admin_waitlist lead
  | SendDoubleOptIn to_email token => send_double_opt_in to_email token
  end.

Definition pending_fields (token : string) : PyDict :=
  {[ "status" := VStr "pending";
     "confirm_token" := VStr token;
     "confirmed_at" := VNone ]}.

Definition created_response (lead_id : string) : PyDict :=
  {[ "success" := VBool true;
     "id" := VStr lead_id;
     "double_opt_in" := VBool true ]}.

Section Handlers.

(** [database.create_document], imported by [main.py]. *)
Variable create_document : string → PyDict → M string.

Definition create_lead (lead : Lead) (background_tasks : list Task)
    : M (PyDict * list Task) :=
  try_except
    ((* Generate confirmation token and store with pending status *)
     let* token := token_urlsafe 32 in
     let data := dict_update (model_dump lead) (pending_fields token) in
     let* lead_id := create_document "lead" data in
     (* Notify admin and send double opt-in *)
     let background_tasks := (background_tasks ++ [NotifyAdminWaitlist lead])%list in
     let background_tasks := (background_tasks ++ [SendDoubleOptIn (email lead) token])%list in
     ret (created_response lead_id, background_tasks))
    (λ e, raise (HTTPException 500 (Py.str_exn e))).

End Handlers.

Definition confirmed_response : PyDict :=
  {[ "success" := VBool true;
     "message" := VStr "Anmeldung bestätigt" ]}.

Definition confirm_waitlist (token : string) : M PyDict :=
  (* placeholder success response: the store is neither read nor updated *)
  ret confirmed_response.

(** ** The document store and request validation *)

Module Store.

Definition record_id (n : nat) : string := String "#" (pretty n).

(** Modelled from the spec: [database.create_document], whose module is not
    part of the sources at hand. The spec describes the store as an opaque
    collection of documents keyed by an opaque id, whose [create] persists
    one document and returns its new, non-empty id, and which fails when
    the store is unavailable ([database.db] is [None], the case the
    diagnostic endpoint of [main.py] tests for). *)
Definition create_document (collection_name : string) (data : PyDict) : M string :=
  λ w, match db w with
       | None => (w, inl (Exception "Database not available"))
       | Some colls =>
           let docs := default [] (colls !! collection_name) in
           let new_id := record_id (length docs) in
           (set_db (Some (<[collection_name := (docs ++ [(new_id, data)])%list]> colls)) w,
            inr new_id)
       end.

(** The lead records held by the store. *)
Definition leads (w : World) : Collection :=
  default [] (db w ≫= (λ colls, colls !! "lead")).

End Store.

Module Schema.

Definition get_str (body : PyDict) (key : string) : option string :=
  match body !! key with
  | Some (VStr s) => Some s
  | _ => None
  end.

Definition get_opt_str (body : PyDict) (key : string) : option (option string) :=
  match body !! key with
  | None | Some VNone => Some None
  | Some (VStr s) => Some (Some s)
  | Some (VBool _) => None
  end.

Definition get_consent (body : PyDict) : option bool :=
  match body !! "consent" with
  | Some (VBool true) => Some true
  | _ => None
  end.

(** Modelled from the spec: validation of a submission against the schema
    [Lead] of [schemas.py]. The five text fields are required, [message]
    is optional, and the consent flag must be true for the submission to be
    accepted. *)
Definition validate (body : PyDict) : option Lead :=
  name ← get_str body "name";
  company ← get_str body "company";
  email ← get_str body "email";
  interest ← get_str body "interest";
  purpose ← get_str body "purpose";
  consent ← get_consent body;
  message ← get_opt_str body "message";
  Some (mkLead name company email interest purpose consent message).

End Schema.

(** ** Request handling *)

Record Response := mkResponse {
  status : Z;
  content : PyDict
}.

(** Deferred calls run one after the other once the response is made; an
    exception ends the run and reaches no client. *)
Fixpoint run_background (tasks : list Task) (w : World) : World :=
  match tasks with
  | [] => w
  | t :: rest =>
      match run_task t w with
      | (w', inr _) => run_background rest w'
      | (w', inl _) => w'
      end
  end.

Definition error_response (e : Exn) : Response :=
  match e with
  | HTTPException code detail => mkResponse code {[ "detail" := VStr detail ]}
  | _ => mkResponse 500 {[ "detail" := VStr "Internal Server Error" ]}
  end.

Section Endpoints.

Variable create_document : string → PyDict → M string.

(** [POST /api/leads]: the body is validated against [Lead] before the
    handler is entered; a body that fails is answered with status 422. *)
Definition post_api_leads (body : PyDict) (w : World) : World * Response :=
  match Schema.validate body with
  | None => (w, mkResponse 422 {[ "detail" := VStr "validation error" ]})
  | Some lead =>
      match create_lead create_document lead [] w with
      | (w', inr (result, tasks)) => (run_background tasks w', mkResponse 200 result)
      | (w', inl e) => (w', error_response e)
      end
  end.

End Endpoints.

(** [GET /api/confirm?token=...] *)
Definition get_api_confirm (token : string) (w : World) : World * Response :=
  match confirm_waitlist token w with
  | (w', inr result) => (w', mkResponse 200 result)
  | (w', inl e) => (w', error_response e)
  end.

(** ** Concurrent confirmation requests

    The handler touches no shared state, so a call is one atomic step; a
    concurrent run of several calls is any order in which the calls in
    flight are served. *)

Record Config := mkConfig {
  world : World;
  in_flight : list string;
  served : list (string * Response)
}.

Inductive step : Config → Config → Prop :=
| step_serve w before token after done :
    step (mkConfig w (before ++ token :: after)%list done)
         (mkConfig (get_api_confirm token w).1 (before ++ after)%list
                   ((token, (get_api_confirm token w).2) :: done)).

Definition succeeded (r : Response) : bool :=
  bool_decide (content r !! "success" = Some (VBool true)).

Definition successes (done : list (string * Response)) : nat :=
  length (List.filter (λ tr, succeeded tr.2) done).

Definition all_succeeded (done : list (string * Response)) : Prop :=
  successes done = length done.

(** ** Lead records *)

Definition is_pending (doc : PyDict) (token : string) : Prop :=
  doc !! "status" = Some (VStr "pending")
  ∧ doc !! "confirm_token" = Some (VStr token).

Definition is_confirmed (doc : PyDict) : Prop :=
  doc !! "status" = Some (VStr "confirmed")
  ∧ (∃ v, doc !! "confirmed_at" = Some v ∧ v ≠ VNone).

Definition has_pending (w : World) (token : string) : Prop :=
  ∃ id doc, (id, doc) ∈ Store.leads w ∧ is_pending doc token.

Definition record_of (w : World) (id : string) : option PyDict :=
  (λ found, found.2.2) <$> list_find (λ r, r.1 = id) (Store.leads w).

(** ** Statements of the specification, in its own words *)

(** Confirming a pending record's token moves the record to [confirmed],
    stamps it, and makes a second call with the token fail. *)
Definition confirm_transitions (w : World) (token : string) : Prop :=
  ∀ id doc, (id, doc) ∈ Store.leads w → is_pending doc token →
    let after := get_api_confirm token w in
    (∃ doc', record_of after.1 id = Some doc' ∧ is_confirmed doc')
    ∧ succeeded (get_api_confirm token after.1).2 = false.

(** A token that matches no pending record is answered negatively, with a
    message, without touching the records, and not as a confirmation is. *)
Definition rejects_unmatched (w : World) (token : string) : Prop :=
  ¬ has_pending w token →
    let after := get_api_confirm token w in
    content after.2 !! "success" = Some (VBool false)
    ∧ (∃ msg, content after.2 !! "message" = Some (VStr msg))
    ∧ Store.leads after.1 = Store.leads w
    ∧ after.2 ≠ mkResponse 200 confirmed_response.

(** However the calls in flight are served, at most one succeeds. *)
Definition at_most_once (c : Config) : Prop :=
  ∀ c', rtc step c c' → (successes (served c') ≤ 1)%nat.

(** The link as [<base>/confirm?token=<token>], the token put in as it is. *)
Definition plain_link (base token : string) : string :=
  if Py.truthy (Some base)
  then base +:+ "/confirm?token=" +:+ token
  else "/confirm?token=" +:+ token.

(** The fallback is taken whenever host, user name or password is missing:
    the message is printed and nothing is raised. *)
Definition mail_unconfigured (w : World) : Prop :=
  Py.truthy (environ w !! "SMTP_HOST") = false
  ∨ Py.truthy (environ w !! "SMTP_USERNAME") = false
  ∨ Py.truthy (environ w !! "SMTP_PASSWORD") = false.

Definition logs_and_returns (c : M unit) (to_email subject body : string) (w : World) : Prop :=
  c w = (set_stdout (stdout w +:+ fallback_text subject body to_email +:+ nl) w, inr tt).

(** A store operation that looks at neither the environment nor the mail
    server. *)
Definition ignores_mail (create_document : string → PyDict → M string) : Prop :=
  ∀ collection_name data w env tr,
    create_document collection_name data (with_mail env tr w)
    = (with_mail env tr (create_document collection_name data w).1,
       (create_document collection_name data w).2).

(** A computation that leaves the part [f] of the world as it is. *)
Definition keeps {A B} (f : World → B) (c : M A) : Prop := ∀ w, f (c w).1 = f w.

(** ** Sample inputs *)

Definition accept_all : Transport := λ _ _ _ _ _, None.

Definition world0 : World :=
  mkWorld ∅ (λ _, x00) 0 (Some ∅) EmptyString accept_all [].

(** The submission of the specification's scenario. *)
Definition body0 : PyDict :=
  {[ "name" := VStr "A";
     "company" := VStr "B";
     "email" := VStr "a@b.com";
     "interest" := VStr "x";
     "purpose" := VStr "y";
     "consent" := VBool true ]}.

Definition lead0 : Lead := mkLead "A" "B" "a@b.com" "x" "y" true None.

Definition token0 : string := Base64.token_text (repeat x00 32).

Definition record0 : PyDict := dict_update (model_dump lead0) (pending_fields token0).

(** The world after the scenario's submission. *)
Definition world_submitted : World :=
  (post_api_leads Store.create_document body0 world0).1.

(** Two calls in flight with the token the scenario's submission issued,
    and the configuration in which both were served. *)
Definition two_calls : Config := mkConfig world_submitted [token0; token0] [].

Definition two_calls_served : Config :=
  mkConfig world_submitted []
    [(token0, mkResponse 200 confirmed_response);
     (token0, mkResponse 200 confirmed_response)].

(** A mail server that refuses every message. *)
Definition refuse_all : Transport := λ _ _ _ _ _, Some (Exception "connection refused").

(** An environment with the mail settings in place. *)
Definition env_configured : gmap string string :=
  {[ "SMTP_HOST" := "smtp.example.com";
     "SMTP_USERNAME" := "mailer";
     "SMTP_PASSWORD" := "secret" ]}.

(** A world with the public base URL configured. *)
Definition world_with_base : World :=
  mkWorld {[ "FRONTEND_URL" := "https://kmu-freight.com" ]} (λ _, x00) 0 (Some ∅)
    EmptyString accept_all [].

(** A world whose entropy source gives the byte 255 throughout. *)
Definition world_high : World :=
  mkWorld ∅ (λ _, xff) 0 (Some ∅) EmptyString accept_all [].

(** A world without a store. *)
Definition world_no_db : World :=
  mkWorld ∅ (λ _, x00) 0 None EmptyString accept_all [].

(** No mail host configured, and [SMTP_PORT] set to the empty string. *)
Definition world_blank_port : World :=
  mkWorld {[ "SMTP_PORT" := EmptyString ]} (λ _, x00) 0 (Some ∅) EmptyString accept_all [].


(** ** The diagnostic endpoint *)

(** The dictionary [test_database] fills in, by its six keys. *)
Record Diagnostics := mkDiagnostics {
  backend : string;
  database : string;
  database_url : option string;
  database_name : option string;
  connection_status : string;
  collections : list string
}.

(** What [test_database] sees of the object [database.db]: its [name]
    attribute, when it has one, and what [list_collection_names()] returns
    or raises. *)
Record DbHandle := mkDbHandle {
  handle_name : option string;
  handle_collections : Exn + list string
}.

(** The outcome of [from database import db]: [ImportError], another
    exception, or the value of [db] ([None] when not initialised). *)
Inductive DbImport :=
| ImportFails
| ImportRaises (e : Exn)
| Imported (handle : option DbHandle).

(** The exception that leaves the outer [try] block. *)
Inductive Escaped :=
| EscapedImportError
| EscapedException (e : Exn).

Definition set_database (v : string) (r : Diagnostics) : Diagnostics :=
  mkDiagnostics (backend r) v (database_url r) (database_name r)
    (connection_status r) (collections r).

Definition set_database_url (v : option string) (r : Diagnostics) : Diagnostics :=
  mkDiagnostics (backend r) (database r) v (database_name r)
    (connection_status r) (collections r).

Definition set_database_name (v : option string) (r : Diagnostics) : Diagnostics :=
  mkDiagnostics (backend r) (database r) (database_url r) v
    (connection_status r) (collections r).

Definition set_connection_status (v : string) (r : Diagnostics) : Diagnostics :=
  mkDiagnostics (backend r) (database r) (database_url r) (database_name r)
    v (collections r).

Definition set_collections (v : list string) (r : Diagnostics) : Diagnostics :=
  mkDiagnostics (backend r) (database r) (database_url r) (database_name r)
    (connection_status r) v.

Definition initial_response : Diagnostics :=
  mkDiagnostics "✅ Running" "❌ Not Available" None None "Not Connected" [].

(** Lines 119-134: the body of the outer [try], on the dictionary as it
    stands; what was written before an exception stays written. *)
Definition probe (imp : DbImport) (response : Diagnostics)
    : Diagnostics * option Escaped :=
  match imp with
  | ImportFails => (response, Some EscapedImportError)
  | ImportRaises e => (response, Some (EscapedException e))
  | Imported (Some db) =>
      let response := set_database "✅ Available" response in
      let response := set_database_url (Some "✅ Configured") response in
      let response :=
        set_database_name (Some (default "✅ Connected" (handle_name db))) response in
      let response := set_connection_status "Connected" response in
      match handle_collections db with
      | inr names =>
          let response := set_collections (firstn 10 names) response in
          (set_database "✅ Connected & Working" response, None)
      | inl e =>
          (set_database ("⚠️  Connected but Error: " +:+ PyText.take_chars 50 (Py.str_exn e)) response,
           None)
      end
  | Imported None => (set_database "⚠️  Available but not initialized" response, None)
  end.

Definition set_or_not (o : option string) : string :=
  if Py.truthy o then "✅ Set" else "❌ Not Set".

Definition test_database (imp : DbImport) : M Diagnostics :=
  let response := initial_response in
  let response :=
    match probe imp response with
    | (response, None) => response
    | (response, Some EscapedImportError) =>
        set_database "❌ Database module not found (run enable-database first)" response
    | (response, Some (EscapedException e)) =>
        set_database ("❌ Error: " +:+ PyText.take_chars 50 (Py.str_exn e)) response
    end in
  let* url := getenv "DATABASE_URL" in
  let response := set_database_url (Some (set_or_not url)) response in
  let* name := getenv "DATABASE_NAME" in
  let response := set_database_name (Some (set_or_not name)) response in
  ret response.

(** ** Further notions for the notifier and the link *)

(** The [From] address of an outgoing message: [SMTP_FROM] when set, else
    [ADMIN_EMAIL] when set, else the fixed no-reply address. *)
Definition from_address (w : World) : string :=
  default (default "no-reply@kmu-freight.com" (environ w !! "ADMIN_EMAIL"))
    (environ w !! "SMTP_FROM").

(** The characters a query value is made of once escaped. *)
Definition query_clean (c : ascii) : bool :=
  Urllib.always_safe c || Ascii.eqb c "%" || Ascii.eqb c "+".

(** The two calls a successful submission defers, in their order. *)
Definition notifications (lead : Lead) (token : string) : list Task :=
  [NotifyAdminWaitlist lead; SendDoubleOptIn (email lead) token].

(** The mail settings in place, with a server that takes every message,
    and with one that refuses them all. *)
Definition world_configured : World :=
  mkWorld env_configured (λ _, x00) 0 (Some ∅) EmptyString accept_all [].

Definition world_refusing : World :=
  mkWorld env_configured (λ _, x00) 0 (Some ∅) EmptyString refuse_all [].


(** A store handle with twelve collections, and one whose listing fails
    with a long message. *)
Definition handle_twelve : DbHandle :=
  mkDbHandle (Some "kmu")
    (inr ["c01"; "c02"; "c03"; "c04"; "c05"; "c06"; "c07"; "c08"; "c09"; "c10";
          "c11"; "c12"]).

Definition long_error : Exn :=
  Exception
    "Zeitüberschreitung: Verbindung zum Datenbankserver konnte nicht hergestellt werden".

Definition handle_failing : DbHandle := mkDbHandle (Some "kmu") (inl long_error).

(** The world after one and after two runs of the handler. *)
Definition world_after_one : World :=
  (create_lead Store.create_document lead0 [] world0).1.

Definition world_after_two : World :=
  (create_lead Store.create_document lead0 [] world_after_one).1.
(** * Properties *)

(** ** Bytes, by enumeration *)

Import Base64.

Lemma all_bytes_nth (b : byte) : nth (N.to_nat (Byte.to_N b)) all_bytes x00 = b.
Proof. destruct b; reflexivity. Qed.

Lemma forallb_all_bytes (p : byte → bool) :
  forallb p all_bytes = true → ∀ b, p b = true.
Proof.
  intros Hall b. rewrite forallb_forall in Hall. apply Hall.
  rewrite <- (all_bytes_nth b) at 1. apply nth_In.
  pose proof (Byte.to_N_bounded b) as Hb.
  change (length all_bytes) with 256%nat. lia.
Qed.

Lemma forallb_all_bytes2 (p : byte → byte → bool) :
  forallb (λ a, forallb (p a) all_bytes) all_bytes = true → ∀ a b, p a b = true.
Proof.
  intros Hall a b.
  apply (forallb_all_bytes (p a)).
  apply (forallb_all_bytes (λ a, forallb (p a) all_bytes)). exact Hall.
Qed.

Lemma to_N_inj (a b : byte) : Byte.to_N a = Byte.to_N b → a = b.
Proof.
  intros H. pose proof (Byte.of_to_N a) as Ha. rewrite H, Byte.of_to_N in Ha.
  congruence.
Qed.

(** ** The token alphabet *)

Module Base64Facts.
Import Base64.

Lemma below_64 (p : N → bool) :
  forallb p (map N.of_nat (seq 0 64)) = true → ∀ n, (n < 64)%N → p n = true.
Proof.
  intros Hall n Hn. rewrite forallb_forall in Hall. apply Hall.
  apply in_map_iff. exists (N.to_nat n). split; [lia|].
  apply in_seq. lia.
Qed.

Lemma token_char_urlsafe n : (n < 64)%N → is_urlsafe (token_char n) = true.
Proof. revert n. apply below_64. vm_compute. reflexivity. Qed.

Lemma token_char_not_pad n : (n < 64)%N → Ascii.eqb (token_char n) pad = false.
Proof.
  intros Hn. apply negb_true_iff. revert n Hn.
  apply (below_64 (λ n, negb (Ascii.eqb (token_char n) pad))).
  vm_compute. reflexivity.
Qed.

Lemma sextet_of_token_char n : (n < 64)%N → sextet_of_char (token_char n) = n.
Proof.
  intros Hn. apply N.eqb_eq. revert n Hn.
  apply (below_64 (λ n, N.eqb (sextet_of_char (token_char n)) n)).
  vm_compute. reflexivity.
Qed.

Lemma token_char_inj n m :
  (n < 64)%N → (m < 64)%N → token_char n = token_char m → n = m.
Proof.
  intros Hn Hm H.
  rewrite <- (sextet_of_token_char n Hn), <- (sextet_of_token_char m Hm).
  now rewrite H.
Qed.

(** Facts on the sextets of bytes, each checked on all bytes. *)
Ltac by_bytes1 :=
  let a := fresh "a" in
  intros a; apply N.eqb_eq; revert a;
  apply forallb_all_bytes; vm_compute; reflexivity.

Ltac by_bytes2 :=
  let a := fresh "a" in let b := fresh "b" in
  intros a b; apply N.eqb_eq; revert a b;
  apply forallb_all_bytes2; vm_compute; reflexivity.

Lemma sextet0_lt (a : byte) : (sextet0 (Byte.to_N a) < 64)%N.
Proof.
  apply N.ltb_lt. revert a. apply forallb_all_bytes. vm_compute. reflexivity.
Qed.

Lemma sextet1_lt (a b : byte) : (sextet1 (Byte.to_N a) (Byte.to_N b) < 64)%N.
Proof.
  apply N.ltb_lt. revert a b. apply forallb_all_bytes2. vm_compute. reflexivity.
Qed.

Lemma sextet2_lt (b c : byte) : (sextet2 (Byte.to_N b) (Byte.to_N c) < 64)%N.
Proof.
  apply N.ltb_lt. revert b c. apply forallb_all_bytes2. vm_compute. reflexivity.
Qed.

Lemma sextet3_lt (c : byte) : (sextet3 (Byte.to_N c) < 64)%N.
Proof.
  apply N.ltb_lt. revert c. apply forallb_all_bytes. vm_compute. reflexivity.
Qed.

(** The first byte of a block, back from its two leading sextets. *)
Lemma first_byte : ∀ a b : byte,
  N.lor (N.shiftl (sextet0 (Byte.to_N a)) 2)
        (N.shiftr (sextet1 (Byte.to_N a) (Byte.to_N b)) 4) = Byte.to_N a.
Proof. by_bytes2. Qed.

(** The high and low halves of the second byte. *)
Lemma second_byte_high : ∀ a b : byte,
  N.land (sextet1 (Byte.to_N a) (Byte.to_N b)) 15 = N.shiftr (Byte.to_N b) 4.
Proof. by_bytes2. Qed.

Lemma second_byte_low : ∀ b c : byte,
  N.shiftr (sextet2 (Byte.to_N b) (Byte.to_N c)) 2 = N.land (Byte.to_N b) 15.
Proof. by_bytes2. Qed.

Lemma byte_halves : ∀ b : byte,
  N.lor (N.shiftl (N.shiftr (Byte.to_N b) 4) 4) (N.land (Byte.to_N b) 15)
  = Byte.to_N b.
Proof. by_bytes1. Qed.

(** The third byte, back from the two trailing sextets. *)
Lemma third_byte : ∀ b c : byte,
  N.lor (N.shiftl (N.land (sextet2 (Byte.to_N b) (Byte.to_N c)) 3) 6)
        (sextet3 (Byte.to_N c)) = Byte.to_N c.
Proof. by_bytes2. Qed.

Lemma first_byte_inj (a b a' b' : byte) :
  sextet0 (Byte.to_N a) = sextet0 (Byte.to_N a') →
  sextet1 (Byte.to_N a) (Byte.to_N b) = sextet1 (Byte.to_N a') (Byte.to_N b') →
  a = a'.
Proof.
  intros H0 H1. apply to_N_inj.
  rewrite <- (first_byte a b), <- (first_byte a' b'). now rewrite H0, H1.
Qed.

Lemma second_byte_inj (a b c a' b' c' : byte) :
  sextet1 (Byte.to_N a) (Byte.to_N b) = sextet1 (Byte.to_N a') (Byte.to_N b') →
  sextet2 (Byte.to_N b) (Byte.to_N c) = sextet2 (Byte.to_N b') (Byte.to_N c') →
  b = b'.
Proof.
  intros H1 H2. apply to_N_inj.
  rewrite <- (byte_halves b), <- (byte_halves b').
  rewrite <- (second_byte_high a b), <- (second_byte_high a' b').
  rewrite <- (second_byte_low b c), <- (second_byte_low b' c').
  now rewrite H1, H2.
Qed.

Lemma third_byte_inj (b c b' c' : byte) :
  sextet2 (Byte.to_N b) (Byte.to_N c) = sextet2 (Byte.to_N b') (Byte.to_N c') →
  sextet3 (Byte.to_N c) = sextet3 (Byte.to_N c') →
  c = c'.
Proof.
  intros H2 H3. apply to_N_inj.
  rewrite <- (third_byte b c), <- (third_byte b' c'). now rewrite H2, H3.
Qed.

End Base64Facts.

Module TokenFacts.
Import Base64 Base64Facts.

Lemma list_ind3 {A} (P : list A → Prop) :
  P [] → (∀ a, P [a]) → (∀ a b, P [a; b]) →
  (∀ a b c rest, P rest → P (a :: b :: c :: rest)) →
  ∀ l, P l.
Proof.
  intros H0 H1 H2 H3. fix IH 1.
  intros [|a [|b [|c rest]]]; [exact H0 | apply H1 | apply H2 | apply H3, IH].
Qed.

Lemma rstrip_cons x r :
  Ascii.eqb x pad = false → rstrip pad (String x r) = String x (rstrip pad r).
Proof.
  intros Hx. cbn [rstrip]. destruct (rstrip pad r); [now rewrite Hx | reflexivity].
Qed.

Lemma sextet1_lt0 (a : byte) : (sextet1 (Byte.to_N a) 0 < 64)%N.
Proof. exact (sextet1_lt a x00). Qed.

Lemma sextet2_lt0 (b : byte) : (sextet2 (Byte.to_N b) 0 < 64)%N.
Proof. exact (sextet2_lt b x00). Qed.

Create HintDb sextet.

#[local] Hint Resolve sextet0_lt sextet1_lt sextet2_lt sextet3_lt
  sextet1_lt0 sextet2_lt0 : sextet.

Lemma token_text_unpadded bs : token_text bs = unpadded bs.
Proof.
  unfold token_text, urlsafe_b64encode.
  induction bs as [|a|a b|a b c rest IH] using list_ind3.
  - reflexivity.
  - cbn [b64encode translate]. fold (token_char (sextet0 (Byte.to_N a))).
    fold (token_char (sextet1 (Byte.to_N a) 0)).
    rewrite !rstrip_cons by (apply token_char_not_pad; auto with sextet).
    reflexivity.
  - cbn [b64encode translate]. fold (token_char (sextet0 (Byte.to_N a))).
    fold (token_char (sextet1 (Byte.to_N a) (Byte.to_N b))).
    fold (token_char (sextet2 (Byte.to_N b) 0)).
    rewrite !rstrip_cons by (apply token_char_not_pad; auto with sextet).
    reflexivity.
  - cbn [b64encode translate]. fold (token_char (sextet0 (Byte.to_N a))).
    fold (token_char (sextet1 (Byte.to_N a) (Byte.to_N b))).
    fold (token_char (sextet2 (Byte.to_N b) (Byte.to_N c))).
    fold (token_char (sextet3 (Byte.to_N c))).
    rewrite !rstrip_cons by (apply token_char_not_pad; auto with sextet).
    rewrite IH. reflexivity.
Qed.

Lemma unpadded_length bs :
  String.length (unpadded bs) = ((4 * length bs + 2) / 3)%nat.
Proof.
  induction bs as [|a|a b|a b c rest IH] using list_ind3; try reflexivity.
  cbn [unpadded String.length length]. rewrite IH.
  replace (4 * S (S (S (length rest))) + 2)%nat
    with ((4 * length rest + 2) + 4 * 3)%nat by lia.
  rewrite Nat.div_add by lia. lia.
Qed.

Lemma unpadded_urlsafe bs : all_chars is_urlsafe (unpadded bs) = true.
Proof.
  induction bs as [|a|a b|a b c rest IH] using list_ind3;
    cbn [unpadded all_chars];
    rewrite ?IH, ?token_char_urlsafe by auto with sextet; reflexivity.
Qed.

Lemma unpadded_inj bs : ∀ bs',
  length bs = length bs' → unpadded bs = unpadded bs' → bs = bs'.
Proof.
  induction bs as [|a|a b|a b c rest IH] using list_ind3;
    intros [|a' [|b' [|c' rest']]] Hlen Heq; try discriminate Hlen;
    cbn [unpadded] in Heq; try reflexivity.
  - injection Heq as H0 H1.
    apply token_char_inj in H0, H1; auto with sextet.
    f_equal. exact (first_byte_inj a x00 a' x00 H0 H1).
  - injection Heq as H0 H1 H2.
    apply token_char_inj in H0, H1, H2; auto with sextet.
    f_equal; [exact (first_byte_inj _ _ _ _ H0 H1) | f_equal].
    exact (second_byte_inj a b x00 a' b' x00 H1 H2).
  - injection Heq as H0 H1 H2 H3 Hrest.
    apply token_char_inj in H0, H1, H2, H3; auto with sextet.
    cbn [length] in Hlen.
    rewrite (first_byte_inj _ _ _ _ H0 H1), (second_byte_inj _ _ _ _ _ _ H1 H2),
      (third_byte_inj _ _ _ _ H2 H3), (IH rest') by (lia || assumption).
    reflexivity.
Qed.

(** [quote_plus] leaves text over the safe alphabet as it is. *)
Lemma urlsafe_always_safe c : is_urlsafe c = true → Urllib.always_safe c = true.
Proof.
  unfold is_urlsafe, Urllib.always_safe.
  destruct (Py.is_upper c), (Py.is_lower c), (Py.is_digit c),
    (Ascii.eqb c "-"), (Ascii.eqb c "_"), (Ascii.eqb c "."); cbn; try reflexivity;
    discriminate.
Qed.

Lemma always_safe_not_space c : Urllib.always_safe c = true → Ascii.eqb c " " = false.
Proof.
  destruct (Ascii.eqb_spec c " ") as [->|]; [vm_compute; discriminate | reflexivity].
Qed.

Lemma quote_safe_text safe s :
  all_chars Urllib.always_safe s = true → Urllib.quote safe s = s.
Proof.
  induction s as [|c r IH]; [reflexivity|].
  cbn [all_chars Urllib.quote]. intros [Hc Hr]%andb_prop.
  rewrite Hc, IH by exact Hr. reflexivity.
Qed.

Lemma mem_space_safe_text s :
  all_chars Urllib.always_safe s = true → Urllib.mem " " s = false.
Proof.
  induction s as [|c r IH]; [reflexivity|].
  cbn [all_chars Urllib.mem]. intros [Hc Hr]%andb_prop.
  rewrite (always_safe_not_space c Hc), IH by exact Hr. reflexivity.
Qed.

Lemma quote_plus_safe_text s :
  all_chars Urllib.always_safe s = true → Urllib.quote_plus s = s.
Proof.
  intros Hs. unfold Urllib.quote_plus.
  rewrite (mem_space_safe_text s Hs). now apply quote_safe_text.
Qed.

Lemma all_chars_impl (p q : ascii → bool) s :
  (∀ c, p c = true → q c = true) → all_chars p s = true → all_chars q s = true.
Proof.
  intros Hpq. induction s as [|c r IH]; [reflexivity|].
  cbn [all_chars]. intros [Hc Hr]%andb_prop. now rewrite (Hpq c Hc), IH.
Qed.

End TokenFacts.

(** ** The confirmation endpoint *)

Lemma get_api_confirm_eq token w :
  get_api_confirm token w = (w, mkResponse 200 confirmed_response).
Proof. reflexivity. Qed.

Lemma confirmed_response_succeeded :
  succeeded (mkResponse 200 confirmed_response) = true.
Proof. vm_compute. reflexivity. Qed.

Lemma world_submitted_leads :
  Store.leads world_submitted = [(Store.record_id 0, record0)].
Proof. vm_compute. reflexivity. Qed.

Lemma record0_pending : is_pending record0 token0.
Proof. split; vm_compute; reflexivity. Qed.

Lemma world_submitted_pending :
  (Store.record_id 0, record0) ∈ Store.leads world_submitted.
Proof. rewrite world_submitted_leads. apply list_elem_of_here. Qed.

(** C10: the confirmation handler is a constant function of its token. For
    any two tokens and any two worlds it returns the same value, the
    dictionary [{"success": True, "message": "Anmeldung bestätigt"}], never
    raises, and hands the world back as it got it: the record store is
    neither read (the result is the same whatever the store holds) nor
    written. *)
Theorem confirm_waitlist_constant (t1 t2 : string) (w1 w2 : World) :
  confirm_waitlist t1 w1 = (w1, inr confirmed_response)
  ∧ (confirm_waitlist t1 w1).2 = (confirm_waitlist t2 w2).2
  ∧ (get_api_confirm t1 w1).2 = (get_api_confirm t2 w2).2
  ∧ db (confirm_waitlist t1 w1).1 = db w1
  ∧ confirmed_response
    = {[ "success" := VBool true; "message" := VStr "Anmeldung bestätigt" ]}.
Proof. repeat split. Qed.

(** C1, as the code has it: for every record in state pending with
    confirm_token [t], confirming [t] answers 200 with the fixed success
    dictionary and changes nothing: the record is still in the store, still
    pending and still carrying [t], and a second call with [t] gives the
    same positive answer. *)
Theorem confirm_pending_keeps_record (w : World) (token id : string) (doc : PyDict) :
  (id, doc) ∈ Store.leads w →
  is_pending doc token →
  let after := get_api_confirm token w in
  after.2 = mkResponse 200 confirmed_response
  ∧ after.1 = w
  ∧ (id, doc) ∈ Store.leads after.1
  ∧ ¬ is_confirmed doc
  ∧ get_api_confirm token after.1 = (w, mkResponse 200 confirmed_response)
  ∧ succeeded (get_api_confirm token after.1).2 = true.
Proof.
  intros Hin [Hstatus Htoken]. cbn zeta. rewrite !get_api_confirm_eq. cbn [fst snd].
  repeat split; try assumption.
  intros [Hconfirmed _]. rewrite Hstatus in Hconfirmed. discriminate.
Qed.

Lemma confirm_pending_keeps_record_witness :
  let after := get_api_confirm token0 world_submitted in
  after.2 = mkResponse 200 confirmed_response
  ∧ after.1 = world_submitted
  ∧ (Store.record_id 0, record0) ∈ Store.leads after.1
  ∧ ¬ is_confirmed record0
  ∧ get_api_confirm token0 after.1 = (world_submitted, mkResponse 200 confirmed_response)
  ∧ succeeded (get_api_confirm token0 after.1).2 = true.
Proof.
  apply (confirm_pending_keeps_record world_submitted token0 (Store.record_id 0) record0).
  - rewrite world_submitted_leads. apply list_elem_of_here.
  - split; vm_compute; reflexivity.
Defined.

(** C1 as stated fails: after the scenario's submission, confirming the
    issued token leaves the record pending. *)
Lemma confirm_transitions_counterexample :
  (Store.record_id 0, record0) ∈ Store.leads world_submitted
  ∧ is_pending record0 token0
  ∧ record_of (get_api_confirm token0 world_submitted).1 (Store.record_id 0) = Some record0
  ∧ succeeded (get_api_confirm token0 (get_api_confirm token0 world_submitted).1).2 = true
  ∧ ¬ confirm_transitions world_submitted token0.
Proof.
  split; [exact world_submitted_pending |].
  split; [exact record0_pending |].
  split; [vm_compute; reflexivity |].
  split; [vm_compute; reflexivity |].
  intros H.
  destruct (H _ _ world_submitted_pending record0_pending) as [_ Hsecond].
  rewrite !get_api_confirm_eq in Hsecond. cbn [fst snd] in Hsecond.
  rewrite confirmed_response_succeeded in Hsecond. discriminate.
Qed.

(** C2, as the code has it: for every token with no matching pending
    record, the confirmation endpoint answers 200 with [success] true and
    the fixed message, leaves the world (and so the record set) unchanged,
    and its answer is the very answer given for a token that does match a
    pending record. *)
Theorem confirm_unmatched_same_answer (w : World) (token : string) :
  ¬ has_pending w token →
  let after := get_api_confirm token w in
  content after.2 !! "success" = Some (VBool true)
  ∧ content after.2 !! "message" = Some (VStr "Anmeldung bestätigt")
  ∧ after.1 = w
  ∧ Store.leads after.1 = Store.leads w
  ∧ (∀ w' token', has_pending w' token' → (get_api_confirm token' w').2 = after.2).
Proof. intros _. repeat split. Qed.

Lemma world0_no_pending token : ¬ has_pending world0 token.
Proof. intros (id & doc & Hin & _). vm_compute in Hin. inversion Hin. Qed.

Lemma confirm_unmatched_same_answer_witness :
  let after := get_api_confirm "unknown" world0 in
  content after.2 !! "success" = Some (VBool true)
  ∧ content after.2 !! "message" = Some (VStr "Anmeldung bestätigt")
  ∧ after.1 = world0
  ∧ Store.leads after.1 = Store.leads world0
  ∧ (∀ w' token', has_pending w' token' → (get_api_confirm token' w').2 = after.2).
Proof.
  apply (confirm_unmatched_same_answer world0 "unknown").
  intros (id & doc & Hin & _). vm_compute in Hin. inversion Hin.
Defined.

(** C2 as stated fails: on the empty store an unknown token is answered
    with [success] true. *)
Lemma rejects_unmatched_counterexample :
  Store.leads world0 = []
  ∧ content (get_api_confirm "unknown" world0).2 !! "success" = Some (VBool true)
  ∧ (get_api_confirm "unknown" world0).2 = (get_api_confirm token0 world_submitted).2
  ∧ ¬ rejects_unmatched world0 "unknown".
Proof.
  repeat split.
  intros H. destruct (H (world0_no_pending _)) as [Hneg _].
  vm_compute in Hneg. discriminate.
Qed.

(** ** Concurrent confirmations *)

Lemma successes_cons token r done :
  successes ((token, r) :: done)
  = if succeeded r then S (successes done) else successes done.
Proof. unfold successes. cbn. destruct (succeeded r); reflexivity. Qed.

Lemma step_preserves c c' :
  step c c' →
  world c' = world c
  ∧ (all_succeeded (served c) → all_succeeded (served c'))
  ∧ (length (served c') + length (in_flight c') = length (served c) + length (in_flight c))%nat.
Proof.
  destruct 1 as [w before token after done]. cbn [world served in_flight].
  rewrite get_api_confirm_eq. cbn [fst snd]. repeat split.
  - unfold all_succeeded. rewrite successes_cons, confirmed_response_succeeded.
    cbn [length]. congruence.
  - rewrite !length_app. cbn [length]. lia.
Qed.

Lemma run_preserves c c' :
  rtc step c c' →
  world c' = world c
  ∧ (all_succeeded (served c) → all_succeeded (served c'))
  ∧ (length (served c') + length (in_flight c') = length (served c) + length (in_flight c))%nat.
Proof.
  induction 1 as [c | c c1 c' Hstep _ (IHw & IHs & IHl)].
  - repeat split; auto.
  - destruct (step_preserves _ _ Hstep) as (Hw & Hs & Hl).
    repeat split; [congruence | auto | lia].
Qed.

(** C9, as the code has it: however concurrent calls of the confirmation
    endpoint are interleaved, every call that has been served has succeeded,
    also when all calls carry the same token, and the world, with it the
    record store, is the one the run started from: no transition is applied,
    neither once nor twice. Once no call is left in flight, the number of
    successes is the number of calls. *)
Theorem concurrent_confirm_all_succeed (w : World) (tokens : list string) (c' : Config) :
  rtc step (mkConfig w tokens []) c' →
  world c' = w
  ∧ successes (served c') = length (served c')
  ∧ (length (served c') + length (in_flight c') = length tokens)%nat
  ∧ (in_flight c' = [] → successes (served c') = length tokens).
Proof.
  intros Hrun. destruct (run_preserves _ _ Hrun) as (Hw & Hs & Hl).
  cbn [world served in_flight length] in *.
  assert (Hall : successes (served c') = length (served c')) by (apply Hs; reflexivity).
  repeat split; [exact Hw | exact Hall | lia |].
  intros Hnil. rewrite Hnil in Hl. cbn [length] in Hl. lia.
Qed.

Lemma two_calls_run : rtc step two_calls two_calls_served.
Proof.
  eapply rtc_l; [exact (step_serve world_submitted [] token0 [token0] []) |].
  eapply rtc_l; [exact (step_serve world_submitted [] token0 [] _) |].
  apply rtc_refl.
Qed.

Lemma concurrent_confirm_all_succeed_witness :
  world two_calls_served = world_submitted
  ∧ successes (served two_calls_served) = length (served two_calls_served)
  ∧ (length (served two_calls_served) + length (in_flight two_calls_served) = 2)%nat
  ∧ (in_flight two_calls_served = [] → successes (served two_calls_served) = 2%nat).
Proof.
  apply (concurrent_confirm_all_succeed world_submitted [token0; token0] two_calls_served).
  eapply rtc_l; [exact (step_serve world_submitted [] token0 [token0] []) |].
  eapply rtc_l; [exact (step_serve world_submitted [] token0 [] _) |].
  apply rtc_refl.
Defined.

(** C9 as stated fails: two calls in flight with the token issued by the
    scenario's submission are both served with success. *)
Lemma at_most_once_counterexample :
  rtc step two_calls two_calls_served
  ∧ successes (served two_calls_served) = 2%nat
  ∧ ¬ at_most_once two_calls.
Proof.
  split; [exact two_calls_run |].
  split; [vm_compute; reflexivity |].
  intros H. specialize (H _ two_calls_run).
  vm_compute in H. lia.
Qed.

(** ** The submission endpoint *)

Lemma token_urlsafe_eq n w :
  token_urlsafe n w
  = (set_urandom_pos (urandom_pos w + n) w, inr (Base64.token_text (next_bytes n w))).
Proof. reflexivity. Qed.

(** The handler, one store call away from its result. *)
Lemma create_lead_eq cd lead tasks w :
  create_lead cd lead tasks w
  = let token := Base64.token_text (next_bytes 32 w) in
    match cd "lead" (dict_update (model_dump lead) (pending_fields token))
             (set_urandom_pos (urandom_pos w + 32) w) with
    | (w', inr lead_id) =>
        (w', inr (created_response lead_id,
                  ((tasks ++ [NotifyAdminWaitlist lead])
                     ++ [SendDoubleOptIn (email lead) token])%list))
    | (w', inl e) => (w', inl (HTTPException 500 (Py.str_exn e)))
    end.
Proof.
  unfold create_lead, try_except, bind. rewrite token_urlsafe_eq. cbn zeta.
  destruct (cd _ _ _) as [w' [e | lead_id]]; reflexivity.
Qed.

(** What a returning run of the handler went through. *)
Lemma create_lead_returns cd lead tasks tasks' w w' result :
  create_lead cd lead tasks w = (w', inr (result, tasks')) →
  ∃ lead_id,
    cd "lead"
       (dict_update (model_dump lead)
          (pending_fields (Base64.token_text (next_bytes 32 w))))
       (set_urandom_pos (urandom_pos w + 32) w) = (w', inr lead_id)
    ∧ result = created_response lead_id
    ∧ tasks' = (tasks ++ notifications lead (Base64.token_text (next_bytes 32 w)))%list.
Proof.
  rewrite create_lead_eq. cbn zeta.
  destruct (cd _ _ _) as [w1 [e | lead_id]] eqn:Hstore; [discriminate |].
  intros [= <- <- <-]. exists lead_id.
  split; [reflexivity |]. split; [reflexivity |].
  unfold notifications. now rewrite <- app_assoc.
Qed.

(** The notifier only prints and sends: a part of the world that neither
    touches is left as it was. *)
Section Frame.

Context {B : Type} (f : World → B).
Hypothesis f_stdout : ∀ s w, f (set_stdout s w) = f w.
Hypothesis f_outbox : ∀ o w, f (set_outbox o w) = f w.

Lemma keeps_ret {A} (a : A) : keeps f (ret a).
Proof. intros w. reflexivity. Qed.

Lemma keeps_raise {A} e : keeps f (@raise A e).
Proof. intros w. reflexivity. Qed.

Lemma keeps_bind {A C} (c : M A) (k : A → M C) :
  keeps f c → (∀ a, keeps f (k a)) → keeps f (bind c k).
Proof.
  intros Hc Hk w. unfold bind. specialize (Hc w).
  destruct (c w) as [w' [e | a]]; cbn [fst] in *; [exact Hc |].
  rewrite (Hk a w'). exact Hc.
Qed.

Lemma keeps_getenv key : keeps f (getenv key).
Proof. intros w. reflexivity. Qed.

Lemma keeps_getenv_default key dflt : keeps f (getenv_default key dflt).
Proof. intros w. reflexivity. Qed.

Lemma keeps_print s : keeps f (print s).
Proof. intros w. apply f_stdout. Qed.

Lemma keeps_int s : keeps f (int s).
Proof. intros w. unfold int. destruct (Py.int_of_str s); reflexivity. Qed.

Lemma keeps_smtp_session host port username password msg :
  keeps f (smtp_session host port username password msg).
Proof.
  intros w. unfold smtp_session.
  destruct (smtp w _ _ _ _ _); [reflexivity | apply f_outbox].
Qed.

Lemma keeps_set_header value : keeps f (set_header value).
Proof. intros w. unfold set_header. destruct (PyText.multi_line value); reflexivity. Qed.

Lemma keeps_send_email subject body to_email :
  keeps f (_send_email subject body to_email).
Proof.
  unfold _send_email.
  repeat (apply keeps_bind;
          [first [apply keeps_getenv | apply keeps_getenv_default | apply keeps_int]
          | intros ?]).
  destruct (_ || _); [apply keeps_print |].
  repeat (apply keeps_bind; [apply keeps_set_header | intros ?]).
  apply keeps_smtp_session.
Qed.

Lemma keeps_run_task t : keeps f (run_task t).
Proof.
  destruct t; cbn [run_task];
    unfold notify_admin_waitlist, send_double_opt_in;
    (apply keeps_bind; [apply keeps_getenv_default | intros ?]);
    apply keeps_send_email.
Qed.


End Frame.




Lemma store_create_document_ignores_mail : ignores_mail Store.create_document.
Proof.
  intros name data w env tr. unfold Store.create_document. cbn [db with_mail].
  destruct (db w); reflexivity.
Qed.


Lemma record_fields lead token :
  dict_update (model_dump lead) (pending_fields token)
  = {[ "name" := VStr (name lead);
       "company" := VStr (company lead);
       "email" := VStr (email lead);
       "interest" := VStr (interest lead);
       "purpose" := VStr (purpose lead);
       "consent" := VBool (consent lead);
       "message" := value_of_opt (message lead);
       "status" := VStr "pending";
       "confirm_token" := VStr token;
       "confirmed_at" := VNone ]}.
Proof. vm_compute. reflexivity. Qed.



Lemma validate_needs_consent body :
  body !! "consent" = Some (VBool false) → Schema.validate body = None.
Proof.
  intros Hconsent. unfold Schema.validate, Schema.get_consent. rewrite Hconsent.
  repeat match goal with
         | |- context [Schema.get_str body ?k] => destruct (Schema.get_str body k)
         end; reflexivity.
Qed.

(** C4: for every submission whose consent flag is false, whatever the
    store and whatever else the submission holds, the submission endpoint
    answers before the handler is entered: the world is unchanged, so no
    record is added to the store, the status is a client error (422), and
    the answer carries no id. *)
Theorem submit_without_consent_rejected
    (create_document : string → PyDict → M string) (body : PyDict) (w : World) :
  body !! "consent" = Some (VBool false) →
  let after := post_api_leads create_document body w in
  after.1 = w
  ∧ Store.leads after.1 = Store.leads w
  ∧ status after.2 = 422%Z
  ∧ (400 ≤ status after.2 < 500)%Z
  ∧ content after.2 !! "id" = None.
Proof.
  intros Hconsent. cbn zeta. unfold post_api_leads.
  rewrite (validate_needs_consent body Hconsent). cbn [fst snd status content].
  repeat split; lia.
Qed.

Lemma submit_without_consent_rejected_witness :
  let body := <["consent" := VBool false]> body0 in
  let after := post_api_leads Store.create_document body world0 in
  after.1 = world0
  ∧ Store.leads after.1 = Store.leads world0
  ∧ status after.2 = 422%Z
  ∧ (400 ≤ status after.2 < 500)%Z
  ∧ content after.2 !! "id" = None.
Proof.
  apply (submit_without_consent_rejected Store.create_document
           (<["consent" := VBool false]> body0) world0).
  vm_compute. reflexivity.
Defined.

Lemma post_api_leads_with_mail cd body w env tr :
  ignores_mail cd →
  (post_api_leads cd body (with_mail env tr w)).2 = (post_api_leads cd body w).2.
Proof.
  intros Hcd. unfold post_api_leads.
  destruct (Schema.validate body) as [lead|]; [| reflexivity].
  rewrite !create_lead_eq. cbn zeta.
  change (next_bytes 32 (with_mail env tr w)) with (next_bytes 32 w).
  change (set_urandom_pos (urandom_pos (with_mail env tr w) + 32) (with_mail env tr w))
    with (with_mail env tr (set_urandom_pos (urandom_pos w + 32) w)).
  rewrite Hcd.
  destruct (cd _ _ _) as [w' [e | lead_id]]; reflexivity.
Qed.

(** C6: if creating the record in the store raises [e] during a submission,
    the handler raises [HTTPException(500, str(e))], and the caller receives
    status 500 with the body [{detail: str(e)}]. And notifications never
    bear on the answer: with a store that does not look at the mail
    settings, the answer to a submission is the same under every environment
    and every behaviour of the mail server (the notifications run after the
    answer is made, and a failure among them reaches no one). *)
Theorem store_failure_500_notifications_apart
    (create_document : string → PyDict → M string)
    (body : PyDict) (lead : Lead) (w w' : World) (e : Exn) :
  Schema.validate body = Some lead →
  create_document "lead"
    (dict_update (model_dump lead) (pending_fields (Base64.token_text (next_bytes 32 w))))
    (set_urandom_pos (urandom_pos w + 32) w) = (w', inl e) →
  ignores_mail create_document →
  create_lead create_document lead [] w = (w', inl (HTTPException 500 (Py.str_exn e)))
  ∧ post_api_leads create_document body w
    = (w', mkResponse 500 {[ "detail" := VStr (Py.str_exn e) ]})
  ∧ (∀ body' w0 env tr,
       (post_api_leads create_document body' (with_mail env tr w0)).2
       = (post_api_leads create_document body' w0).2).
Proof.
  intros Hvalid Hfail Hcd.
  assert (Hhandler : create_lead create_document lead [] w
                     = (w', inl (HTTPException 500 (Py.str_exn e)))).
  { rewrite create_lead_eq. cbn zeta. rewrite Hfail. reflexivity. }
  split; [exact Hhandler |].
  split.
  - unfold post_api_leads. rewrite Hvalid, Hhandler. reflexivity.
  - intros body' w0 env tr. now apply post_api_leads_with_mail.
Qed.

Lemma store_failure_500_notifications_apart_witness :
  create_lead Store.create_document lead0 [] world_no_db
  = (set_urandom_pos 32 world_no_db,
     inl (HTTPException 500 (Py.str_exn (Exception "Database not available"))))
  ∧ post_api_leads Store.create_document body0 world_no_db
    = (set_urandom_pos 32 world_no_db,
       mkResponse 500 {[ "detail" := VStr (Py.str_exn (Exception "Database not available")) ]})
  ∧ (∀ body' w0 env tr,
       (post_api_leads Store.create_document body' (with_mail env tr w0)).2
       = (post_api_leads Store.create_document body' w0).2).
Proof.
  apply (store_failure_500_notifications_apart Store.create_document body0 lead0 world_no_db).
  - vm_compute. reflexivity.
  - reflexivity.
  - intros name data w env tr. unfold Store.create_document. cbn [db with_mail].
    destruct (db w); reflexivity.
Defined.

(** A failing mail server changes what is sent, not what is answered. *)
Example refused_mail_same_answer :
  (run_task (NotifyAdminWaitlist lead0) (with_mail env_configured refuse_all world0)).2
  = inl (Exception "connection refused")
  ∧ (post_api_leads Store.create_document body0 (with_mail env_configured refuse_all world0)).2
    = (post_api_leads Store.create_document body0 world0).2.
Proof. split; vm_compute; reflexivity. Qed.

(** ** Token issuance *)

Lemma drawn_bytes_pointwise (f g : nat → byte) (a b n i : nat) :
  map f (seq a n) = map g (seq b n) → (i < n)%nat → f (a + i)%nat = g (b + i)%nat.
Proof.
  intros Heq Hi.
  assert (Hf : map f (seq a n) !! i = Some (f (a + i)%nat)).
  { change (map f (seq a n)) with (f <$> seq a n).
    now rewrite list_lookup_fmap, lookup_seq_lt. }
  assert (Hg : map g (seq b n) !! i = Some (g (b + i)%nat)).
  { change (map g (seq b n)) with (g <$> seq b n).
    now rewrite list_lookup_fmap, lookup_seq_lt. }
  rewrite Heq, Hg in Hf. congruence.
Qed.

(** C5: issuing a token takes no input: it reads the 32 bytes (256 bits)
    that the entropy source holds at its cursor, moves the cursor past
    them, and never raises. The token is 43 characters long, each of them a
    letter, a digit, [-] or [_], so that [quote_plus] (the escaping of a URL
    query value) leaves it as it is. And it carries all 256 bits of the
    draw: two draws of 32 bytes that give the same token are the same
    bytes, so a world whose source would give the same token holds, byte
    for byte, the same 32 bytes at its cursor. *)
Theorem token_urlsafe_256_bits (w : World) :
  let drawn := map (urandom w) (seq (urandom_pos w) 32) in
  let token := Base64.token_text drawn in
  token_urlsafe 32 w = (set_urandom_pos (urandom_pos w + 32) w, inr token)
  ∧ length drawn = 32%nat
  ∧ String.length token = 43%nat
  ∧ Base64.all_chars Base64.is_urlsafe token = true
  ∧ Urllib.quote_plus token = token
  ∧ (∀ bs bs' : list byte,
       length bs = 32%nat → length bs' = 32%nat →
       Base64.token_text bs = Base64.token_text bs' → bs = bs')
  ∧ (∀ w' : World,
       Base64.token_text (map (urandom w') (seq (urandom_pos w') 32)) = token →
       ∀ i, (i < 32)%nat →
            urandom w' (urandom_pos w' + i)%nat = urandom w (urandom_pos w + i)%nat).
Proof.
  cbn zeta.
  assert (Hlen : ∀ w0, length (map (urandom w0) (seq (urandom_pos w0) 32)) = 32%nat).
  { intros w0. rewrite length_map, length_seq. reflexivity. }
  assert (Hinj : ∀ bs bs' : list byte,
             length bs = 32%nat → length bs' = 32%nat →
             Base64.token_text bs = Base64.token_text bs' → bs = bs').
  { intros bs bs' Hbs Hbs'. rewrite !TokenFacts.token_text_unpadded.
    apply TokenFacts.unpadded_inj. congruence. }
  split; [reflexivity |].
  split; [apply Hlen |].
  split; [rewrite TokenFacts.token_text_unpadded, TokenFacts.unpadded_length, Hlen;
          reflexivity |].
  split; [rewrite TokenFacts.token_text_unpadded; apply TokenFacts.unpadded_urlsafe |].
  split.
  - rewrite TokenFacts.token_text_unpadded.
    apply TokenFacts.quote_plus_safe_text.
    apply (TokenFacts.all_chars_impl Base64.is_urlsafe).
    + exact TokenFacts.urlsafe_always_safe.
    + apply TokenFacts.unpadded_urlsafe.
  - split; [exact Hinj |].
    intros w' Htoken i Hi.
    apply Hinj in Htoken; [| apply Hlen | apply Hlen].
    exact (drawn_bytes_pointwise _ _ _ _ 32 i Htoken Hi).
Qed.

Lemma token_urlsafe_256_bits_witness :
  token_urlsafe 32 world0 = (set_urandom_pos 32 world0, inr token0)
  ∧ String.length token0 = 43%nat
  ∧ Urllib.quote_plus token0 = token0
  ∧ (token_urlsafe 32 world_high).2 ≠ (token_urlsafe 32 world0).2.
Proof.
  destruct (token_urlsafe_256_bits world0) as (Hrun & _ & Hlen & _ & Hquote & _ & Hsame).
  split; [exact Hrun |].
  split; [exact Hlen |].
  split; [exact Hquote |].
  intros Heq.
  apply (f_equal (λ r : Exn + string,
                    match r with inr t => t | inl _ => EmptyString end)) in Heq.
  pose proof (Hsame world_high Heq 0%nat ltac:(lia)) as Hbyte.
  discriminate Hbyte.
Defined.

Example token0_text : token0 = "AAAAAAAAAAAAAAAAAAAAAAAAAAAAAAAAAAAAAAAAAAA".
Proof. vm_compute. reflexivity. Qed.

Example token_of_high_bytes :
  Base64.token_text (repeat xff 32) = "__________________________________________8".
Proof. vm_compute. reflexivity. Qed.

(** ** The notifier *)

Lemma send_email_eq subject body to_email w :
  _send_email subject body to_email w
  = match Py.int_of_str (default "587" (environ w !! "SMTP_PORT")) with
    | None =>
        (w, inl (ValueError
                   (PyText.int_error_text (default "587" (environ w !! "SMTP_PORT")))))
    | Some port =>
        if negb (Py.truthy (environ w !! "SMTP_HOST"))
           || negb (Py.truthy (environ w !! "SMTP_USERNAME"))
           || negb (Py.truthy (environ w !! "SMTP_PASSWORD"))
        then print (fallback_text subject body to_email) w
        else if PyText.multi_line subject
                || PyText.multi_line
                     (default (default "no-reply@kmu-freight.com"
                                 (environ w !! "ADMIN_EMAIL"))
                        (environ w !! "SMTP_FROM"))
                || PyText.multi_line to_email
        then (w, inl (ValueError
                        "Header values may not contain linefeed or carriage return characters"))
        else smtp_session (default EmptyString (environ w !! "SMTP_HOST")) port
               (default EmptyString (environ w !! "SMTP_USERNAME"))
               (default EmptyString (environ w !! "SMTP_PASSWORD"))
               (mkEmail subject
                  (default (default "no-reply@kmu-freight.com" (environ w !! "ADMIN_EMAIL"))
                     (environ w !! "SMTP_FROM"))
                  to_email body) w
    end.
Proof.
  unfold _send_email, bind, getenv, getenv_default, int.
  destruct (Py.int_of_str _); [| reflexivity].
  unfold ret. destruct (_ || _); [reflexivity |].
  unfold set_header.
  destruct (PyText.multi_line subject); [reflexivity |].
  destruct (PyText.multi_line (default _ _)); [reflexivity |].
  destruct (PyText.multi_line to_email); reflexivity.
Qed.

(** The console fallback, where the port text is a number. *)
Lemma send_email_fallback_logs subject body to_email w port :
  mail_unconfigured w →
  Py.int_of_str (default "587" (environ w !! "SMTP_PORT")) = Some port →
  logs_and_returns (_send_email subject body to_email) to_email subject body w.
Proof.
  intros Hmail Hport. unfold logs_and_returns. rewrite send_email_eq, Hport.
  replace (negb (Py.truthy (environ w !! "SMTP_HOST"))
           || negb (Py.truthy (environ w !! "SMTP_USERNAME"))
           || negb (Py.truthy (environ w !! "SMTP_PASSWORD"))) with true; [reflexivity |].
  destruct Hmail as [-> | [-> | ->]]; cbn [negb orb];
    repeat match goal with |- context [negb ?b] => destruct (negb b) end; reflexivity.
Qed.

Lemma send_email_fallback_unset_port subject body to_email w :
  mail_unconfigured w →
  environ w !! "SMTP_PORT" = None →
  logs_and_returns (_send_email subject body to_email) to_email subject body w.
Proof.
  intros Hmail Hport. apply (send_email_fallback_logs _ _ _ _ 587%Z Hmail).
  rewrite Hport. reflexivity.
Qed.

(** C7 fails on the code where the mail settings are missing and
    [SMTP_PORT] is set to text that is not a number, the empty string for
    one: the port is parsed before the settings are looked at, so
    [_send_email], and with it both notifications, raises [ValueError] and
    prints nothing. *)
Theorem fallback_raises_on_blank_port (subject body to_email token : string) (lead : Lead) :
  mail_unconfigured world_blank_port
  ∧ _send_email subject body to_email world_blank_port
    = (world_blank_port, inl (ValueError "invalid literal for int() with base 10: ''"))
  ∧ notify_admin_waitlist lead world_blank_port
    = (world_blank_port, inl (ValueError "invalid literal for int() with base 10: ''"))
  ∧ send_double_opt_in to_email token world_blank_port
    = (world_blank_port, inl (ValueError "invalid literal for int() with base 10: ''"))
  ∧ ¬ logs_and_returns (_send_email subject body to_email) to_email subject body
        world_blank_port.
Proof.
  assert (Hsend : ∀ s b t, _send_email s b t world_blank_port
    = (world_blank_port, inl (ValueError "invalid literal for int() with base 10: ''"))).
  { intros s b t. rewrite send_email_eq. reflexivity. }
  split; [left; reflexivity |].
  split; [apply Hsend |].
  split; [unfold notify_admin_waitlist, bind, getenv_default; cbn match; apply Hsend |].
  split; [unfold send_double_opt_in, bind, getenv_default; cbn match; apply Hsend |].
  unfold logs_and_returns. rewrite Hsend. intros H. discriminate H.
Qed.

(** ** The confirmation link *)

Lemma confirm_url_base base token :
  base ≠ EmptyString →
  confirm_url base token = base +:+ "/confirm?token=" +:+ Urllib.quote_plus token.
Proof.
  intros Hbase. unfold confirm_url. destruct base as [|c r]; [congruence |].
  reflexivity.
Qed.

Lemma issued_token_safe drawn :
  Base64.all_chars Urllib.always_safe (Base64.token_text drawn) = true.
Proof.
  rewrite TokenFacts.token_text_unpadded.
  apply (TokenFacts.all_chars_impl Base64.is_urlsafe).
  - exact TokenFacts.urlsafe_always_safe.
  - apply TokenFacts.unpadded_urlsafe.
Qed.

Lemma confirm_url_issued base drawn :
  confirm_url base (Base64.token_text drawn) = plain_link base (Base64.token_text drawn).
Proof.
  unfold plain_link. destruct base as [|c r]; [reflexivity |].
  rewrite confirm_url_base by discriminate.
  now rewrite TokenFacts.quote_plus_safe_text by apply issued_token_safe.
Qed.

(** C8: for every address and every token that token issuance can give
    (the text of some drawn bytes, which is what the submission handler
    passes on with each opt-in call it queues), [send_double_opt_in] hands
    [_send_email] a body that holds the link between a fixed head and a
    fixed tail. The link is [<base>/confirm?token=<token>], base and token
    as they are, when [FRONTEND_URL] is set and not empty, and the relative
    path [/confirm?token=<token>] when it is unset or empty. *)
Theorem send_double_opt_in_link (to_email : string) (drawn : list byte) (w : World) :
  let token := Base64.token_text drawn in
  let base := default EmptyString (environ w !! "FRONTEND_URL") in
  let url := plain_link base token in
  send_double_opt_in to_email token w
  = _send_email opt_in_subject (opt_in_body_head +:+ url +:+ opt_in_body_tail) to_email w
  ∧ confirm_url base token = url
  ∧ (base ≠ EmptyString → url = base +:+ "/confirm?token=" +:+ token)
  ∧ (base = EmptyString → url = "/confirm?token=" +:+ token)
  ∧ (environ w !! "FRONTEND_URL" = None → url = "/confirm?token=" +:+ token)
  ∧ (∀ create_document lead tasks tasks' w0 w1 result address passed,
       create_lead create_document lead tasks w0 = (w1, inr (result, tasks')) →
       SendDoubleOptIn address passed ∈ drop (length tasks) tasks' →
       address = email lead
       ∧ passed = Base64.token_text (map (urandom w0) (seq (urandom_pos w0) 32))).
Proof.
  cbn zeta. set (base := default EmptyString (environ w !! "FRONTEND_URL")).
  split.
  { rewrite <- confirm_url_issued. reflexivity. }
  split; [apply confirm_url_issued |].
  split; [intros Hbase; unfold plain_link; destruct base; [congruence | reflexivity] |].
  split; [intros ->; reflexivity |].
  split; [subst base; intros ->; reflexivity |].
  intros cd lead tasks tasks' w0 w1 result address passed Hrun Hin.
  apply create_lead_returns in Hrun as (lead_id & _ & _ & ->).
  rewrite drop_app_length in Hin. unfold notifications in Hin.
  apply elem_of_cons in Hin as [Hin | Hin]; [discriminate Hin |].
  apply list_elem_of_singleton in Hin. injection Hin as -> ->.
  split; reflexivity.
Qed.

Lemma send_double_opt_in_link_witness :
  send_double_opt_in "a@b.com" token0 world_with_base
  = _send_email opt_in_subject
      (opt_in_body_head
       +:+ "https://kmu-freight.com/confirm?token=AAAAAAAAAAAAAAAAAAAAAAAAAAAAAAAAAAAAAAAAAAA"
       +:+ opt_in_body_tail) "a@b.com" world_with_base
  ∧ send_double_opt_in "a@b.com" token0 world0
    = _send_email opt_in_subject
        (opt_in_body_head
         +:+ "/confirm?token=AAAAAAAAAAAAAAAAAAAAAAAAAAAAAAAAAAAAAAAAAAA"
         +:+ opt_in_body_tail) "a@b.com" world0.
Proof.
  split.
  - exact (proj1 (send_double_opt_in_link "a@b.com" (repeat x00 32) world_with_base)).
  - exact (proj1 (send_double_opt_in_link "a@b.com" (repeat x00 32) world0)).
Defined.

Example opt_in_mail_with_base :
  stdout (send_double_opt_in "a@b.com" token0 world_with_base).1
  = "[EMAIL-FALLBACK] To: a@b.com" +:+ nl
    +:+ "Subject: " +:+ opt_in_subject +:+ nl +:+ nl
    +:+ opt_in_body_head
    +:+ "https://kmu-freight.com/confirm?token=AAAAAAAAAAAAAAAAAAAAAAAAAAAAAAAAAAAAAAAAAAA"
    +:+ opt_in_body_tail +:+ nl.
Proof. vm_compute. reflexivity. Qed.

(** * Further properties of the code *)

(** ** Sending a message *)

Lemma mail_unconfigured_test w :
  mail_unconfigured w
  ↔ negb (Py.truthy (environ w !! "SMTP_HOST"))
    || negb (Py.truthy (environ w !! "SMTP_USERNAME"))
    || negb (Py.truthy (environ w !! "SMTP_PASSWORD")) = true.
Proof.
  unfold mail_unconfigured.
  destruct (Py.truthy (environ w !! "SMTP_HOST")),
    (Py.truthy (environ w !! "SMTP_USERNAME")),
    (Py.truthy (environ w !! "SMTP_PASSWORD")); cbn; intuition discriminate.
Qed.

Lemma send_email_message_from subject body to_email w :
  mkEmail subject
    (default (default "no-reply@kmu-freight.com" (environ w !! "ADMIN_EMAIL"))
       (environ w !! "SMTP_FROM")) to_email body
  = mkEmail subject (from_address w) to_email body.
Proof. reflexivity. Qed.

(** X1: a call of [_send_email] ends in one of three ways. It raises and
    leaves the world exactly as it was (nothing printed, nothing sent); or
    the mail settings are incomplete and it prints the fallback text, once,
    sending nothing; or they are complete and the mail server took the one
    message made of subject, sender, recipient and body, with nothing
    printed. *)
Theorem send_email_outcomes (subject body to_email : string) (w : World) :
  (∃ e, _send_email subject body to_email w = (w, inl e))
  ∨ (mail_unconfigured w
     ∧ _send_email subject body to_email w
       = (set_stdout (stdout w +:+ fallback_text subject body to_email +:+ nl) w, inr tt))
  ∨ (¬ mail_unconfigured w
     ∧ _send_email subject body to_email w
       = (set_outbox (outbox w ++ [mkEmail subject (from_address w) to_email body])%list w,
          inr tt)).
Proof.
  rewrite send_email_eq, send_email_message_from.
  destruct (Py.int_of_str _) as [port|]; [| left; eauto].
  destruct (negb _ || negb _ || negb _) eqn:Htest.
  - right; left. split; [now apply mail_unconfigured_test | reflexivity].
  - destruct (PyText.multi_line subject || _ || _); [left; eauto |].
    unfold smtp_session. destruct (smtp w _ _ _ _ _) as [e|]; [left; eauto |].
    right; right. split; [| reflexivity].
    rewrite mail_unconfigured_test, Htest. discriminate.
Qed.





Lemma notify_admin_waitlist_eq lead w :
  notify_admin_waitlist lead w
  = _send_email admin_subject (admin_body lead)
      (default "max.salterberg@kmu-freight.com" (environ w !! "ADMIN_EMAIL")) w.
Proof. reflexivity. Qed.

Lemma send_double_opt_in_eq to_email token w :
  send_double_opt_in to_email token w
  = _send_email opt_in_subject
      (opt_in_body (confirm_url (default EmptyString (environ w !! "FRONTEND_URL")) token))
      to_email w.
Proof. reflexivity. Qed.



(** X4: neither notification writes to the store, draws from the entropy
    source, or changes the environment or the mail server, whether it
    returns or raises. *)
Theorem notifications_leave_the_rest
    (lead : Lead) (to_email token : string) (w : World) :
  let after_admin := (notify_admin_waitlist lead w).1 in
  let after_opt_in := (send_double_opt_in to_email token w).1 in
  (db after_admin = db w
   ∧ urandom_pos after_admin = urandom_pos w
   ∧ environ after_admin = environ w
   ∧ smtp after_admin = smtp w)
  ∧ (db after_opt_in = db w
     ∧ urandom_pos after_opt_in = urandom_pos w
     ∧ environ after_opt_in = environ w
     ∧ smtp after_opt_in = smtp w).
Proof.
  cbn zeta. split.
  - change (notify_admin_waitlist lead) with (run_task (NotifyAdminWaitlist lead)).
    repeat split; now apply keeps_run_task.
  - change (send_double_opt_in to_email token)
      with (run_task (SendDoubleOptIn to_email token)).
    repeat split; now apply keeps_run_task.
Qed.

(** ** The submission handler *)

(** X5: when [create_lead] returns, the store was asked once, for the
    collection [lead], to create the lead's fields with the pending
    fields; the result carries the id the store returned; and exactly two
    calls were added behind those already queued, the admin notification
    first and the opt-in mail second, the latter for the lead's address
    and with the very token that went into the record. *)
Theorem create_lead_queues_notifications
    (create_document : string → PyDict → M string)
    (lead : Lead) (tasks tasks' : list Task) (w w' : World) (result : PyDict) :
  create_lead create_document lead tasks w = (w', inr (result, tasks')) →
  ∃ lead_id token,
    token = Base64.token_text (next_bytes 32 w)
    ∧ create_document "lead" (dict_update (model_dump lead) (pending_fields token))
        (set_urandom_pos (urandom_pos w + 32) w) = (w', inr lead_id)
    ∧ result = created_response lead_id
    ∧ tasks' = (tasks ++ notifications lead token)%list
    ∧ dict_update (model_dump lead) (pending_fields token) !! "confirm_token"
      = Some (VStr token).
Proof.
  intros Hrun.
  apply create_lead_returns in Hrun as (lead_id & Hstore & -> & ->).
  exists lead_id, (Base64.token_text (next_bytes 32 w)).
  split; [reflexivity |]. split; [exact Hstore |]. split; [reflexivity |].
  split; [reflexivity |].
  rewrite record_fields. vm_compute. reflexivity.
Qed.

Lemma create_lead_queues_notifications_witness :
  ∃ lead_id token,
    token = Base64.token_text (next_bytes 32 world0)
    ∧ Store.create_document "lead" (dict_update (model_dump lead0) (pending_fields token))
        (set_urandom_pos (urandom_pos world0 + 32) world0)
      = ((create_lead Store.create_document lead0 [] world0).1, inr lead_id)
    ∧ created_response (Store.record_id 0) = created_response lead_id
    ∧ notifications lead0 token0 = ([] ++ notifications lead0 token)%list
    ∧ dict_update (model_dump lead0) (pending_fields token) !! "confirm_token"
      = Some (VStr token).
Proof.
  apply (create_lead_queues_notifications Store.create_document lead0 []
           (notifications lead0 token0) world0
           (create_lead Store.create_document lead0 [] world0).1
           (created_response (Store.record_id 0))).
  vm_compute. reflexivity.
Defined.

(** X6: whatever the store raises, [create_lead] raises nothing but an
    [HTTPException] with status 500, whose detail is the text of what the
    store raised; the world is the one the store left, and no call was
    queued for it to run. *)
Theorem create_lead_raises_only_500
    (create_document : string → PyDict → M string)
    (lead : Lead) (tasks : list Task) (w w' : World) (raised : Exn) :
  create_lead create_document lead tasks w = (w', inl raised) →
  ∃ e,
    create_document "lead"
      (dict_update (model_dump lead) (pending_fields (Base64.token_text (next_bytes 32 w))))
      (set_urandom_pos (urandom_pos w + 32) w) = (w', inl e)
    ∧ raised = HTTPException 500 (Py.str_exn e).
Proof.
  rewrite create_lead_eq. cbn zeta.
  destruct (create_document _ _ _) as [w1 [e | lead_id]] eqn:Hstore; [| discriminate].
  intros [= <- <-]. exists e. split; reflexivity.
Qed.

Lemma create_lead_raises_only_500_witness :
  ∃ e,
    Store.create_document "lead"
      (dict_update (model_dump lead0)
         (pending_fields (Base64.token_text (next_bytes 32 world_no_db))))
      (set_urandom_pos (urandom_pos world_no_db + 32) world_no_db)
    = (set_urandom_pos 32 world_no_db, inl e)
    ∧ HTTPException 500 "Database not available" = HTTPException 500 (Py.str_exn e).
Proof.
  apply (create_lead_raises_only_500 Store.create_document lead0 [] world_no_db
           (set_urandom_pos 32 world_no_db)
           (HTTPException 500 "Database not available")).
  vm_compute. reflexivity.
Defined.

Lemma next_bytes_length n w : length (next_bytes n w) = n.
Proof. unfold next_bytes. now rewrite length_map, length_seq. Qed.

(** X7: two submissions handled one after the other, with a store that
    leaves the entropy source alone, take their tokens from consecutive,
    disjoint runs of 32 bytes of the source; the two tokens are equal only
    if the source gave the same 32 bytes twice. *)
Theorem successive_tokens_differ_with_the_entropy
    (create_document : string → PyDict → M string)
    (lead1 lead2 : Lead) (tasks1 tasks2 tasks1' tasks2' : list Task)
    (w w1 w2 : World) (result1 result2 : PyDict) :
  (∀ name data, keeps urandom (create_document name data)) →
  (∀ name data, keeps urandom_pos (create_document name data)) →
  create_lead create_document lead1 tasks1 w = (w1, inr (result1, tasks1')) →
  create_lead create_document lead2 tasks2 w1 = (w2, inr (result2, tasks2')) →
  let first := map (urandom w) (seq (urandom_pos w) 32) in
  let second := map (urandom w) (seq (urandom_pos w + 32) 32) in
  tasks1' = (tasks1 ++ notifications lead1 (Base64.token_text first))%list
  ∧ tasks2' = (tasks2 ++ notifications lead2 (Base64.token_text second))%list
  ∧ urandom_pos w2 = (urandom_pos w + 64)%nat
  ∧ (Base64.token_text first = Base64.token_text second → first = second).
Proof.
  intros Hsrc Hpos H1 H2. cbn zeta.
  apply create_lead_returns in H1 as (id1 & Hstore1 & _ & ->).
  apply create_lead_returns in H2 as (id2 & Hstore2 & _ & ->).
  set (data1 := dict_update (model_dump lead1) _) in Hstore1.
  set (data2 := dict_update (model_dump lead2) _) in Hstore2.
  pose proof (Hsrc "lead" data1 (set_urandom_pos (urandom_pos w + 32) w)) as Hs1.
  pose proof (Hpos "lead" data1 (set_urandom_pos (urandom_pos w + 32) w)) as Hp1.
  rewrite Hstore1 in Hs1, Hp1. cbn [fst urandom urandom_pos set_urandom_pos] in Hs1, Hp1.
  pose proof (Hpos "lead" data2 (set_urandom_pos (urandom_pos w1 + 32) w1)) as Hp2.
  rewrite Hstore2 in Hp2. cbn [fst urandom_pos set_urandom_pos] in Hp2.
  unfold next_bytes. rewrite Hs1, Hp1.
  split; [reflexivity |]. split; [reflexivity |]. split; [lia |].
  intros Heq. rewrite !TokenFacts.token_text_unpadded in Heq.
  apply TokenFacts.unpadded_inj in Heq; [exact Heq |].
  now rewrite !length_map, !length_seq.
Qed.

Lemma successive_tokens_differ_with_the_entropy_witness :
  let first := map (urandom world0) (seq (urandom_pos world0) 32) in
  let second := map (urandom world0) (seq (urandom_pos world0 + 32) 32) in
  notifications lead0 token0
  = ([] ++ notifications lead0 (Base64.token_text first))%list
  ∧ notifications lead0 token0
    = ([] ++ notifications lead0 (Base64.token_text second))%list
  ∧ urandom_pos world_after_two = (urandom_pos world0 + 64)%nat
  ∧ (Base64.token_text first = Base64.token_text second → first = second).
Proof.
  apply (successive_tokens_differ_with_the_entropy Store.create_document lead0 lead0
           [] [] (notifications lead0 token0) (notifications lead0 token0)
           world0 world_after_one world_after_two
           (created_response (Store.record_id 0)) (created_response (Store.record_id 1))).
  - intros name data w. unfold Store.create_document. destruct (db w); reflexivity.
  - intros name data w. unfold Store.create_document. destruct (db w); reflexivity.
  - vm_compute. reflexivity.
  - vm_compute. reflexivity.
Defined.

(** ** The deferred notifications *)

Lemma send_email_raise_keeps_world subject body to_email w w' e :
  _send_email subject body to_email w = (w', inl e) → w' = w.
Proof.
  rewrite send_email_eq.
  destruct (Py.int_of_str _) as [port|]; [| congruence].
  destruct (negb _ || negb _ || negb _); [discriminate |].
  destruct (PyText.multi_line subject || _ || _); [congruence |].
  unfold smtp_session. destruct (smtp w _ _ _ _ _); [congruence | discriminate].
Qed.

(** X8: if the admin notification raises, the run of the two deferred
    calls ends there: the opt-in mail to the submitter is not attempted,
    and the world is as it was, with nothing printed and nothing sent. *)
Theorem failed_admin_mail_stops_opt_in
    (lead : Lead) (token : string) (w w' : World) (e : Exn) :
  notify_admin_waitlist lead w = (w', inl e) →
  run_background (notifications lead token) w = w
  ∧ stdout (run_background (notifications lead token) w) = stdout w
  ∧ outbox (run_background (notifications lead token) w) = outbox w.
Proof.
  intros Hraise.
  assert (Hw : w' = w).
  { rewrite notify_admin_waitlist_eq in Hraise.
    exact (send_email_raise_keeps_world _ _ _ _ _ _ Hraise). }
  subst w'.
  assert (Hrun : run_background (notifications lead token) w = w).
  { unfold notifications. cbn [run_background run_task]. now rewrite Hraise. }
  rewrite Hrun. repeat split.
Qed.

Lemma failed_admin_mail_stops_opt_in_witness :
  run_background (notifications lead0 token0) world_refusing = world_refusing
  ∧ stdout (run_background (notifications lead0 token0) world_refusing)
    = stdout world_refusing
  ∧ outbox (run_background (notifications lead0 token0) world_refusing)
    = outbox world_refusing.
Proof.
  apply (failed_admin_mail_stops_opt_in lead0 token0 world_refusing world_refusing
           (Exception "connection refused")).
  vm_compute. reflexivity.
Defined.

(** X9: with the mail settings incomplete and a port text that is a
    number, the two deferred calls of a submission print two fallback
    texts and send nothing: first the admin notification, addressed to
    [ADMIN_EMAIL] or else to the fixed admin address, then the opt-in mail
    to the lead's address, whose body holds the link for the token. *)
Theorem unconfigured_notifications_log_both
    (lead : Lead) (token : string) (port : Z) (w : World) :
  mail_unconfigured w →
  Py.int_of_str (default "587" (environ w !! "SMTP_PORT")) = Some port →
  let admin_email := default "max.salterberg@kmu-freight.com" (environ w !! "ADMIN_EMAIL") in
  let url := confirm_url (default EmptyString (environ w !! "FRONTEND_URL")) token in
  run_background (notifications lead token) w
  = set_stdout
      ((stdout w +:+ fallback_text admin_subject (admin_body lead) admin_email +:+ nl)
       +:+ fallback_text opt_in_subject (opt_in_body url) (email lead) +:+ nl) w.
Proof.
  intros Hmail Hport. cbn zeta. unfold notifications.
  cbn [run_background run_task].
  rewrite notify_admin_waitlist_eq.
  rewrite (send_email_fallback_logs _ _ _ w port Hmail Hport).
  set (w1 := set_stdout _ w).
  rewrite send_double_opt_in_eq.
  rewrite (send_email_fallback_logs _ _ _ w1 port Hmail Hport).
  reflexivity.
Qed.

Lemma unconfigured_notifications_log_both_witness :
  let admin_email :=
    default "max.salterberg@kmu-freight.com" (environ world0 !! "ADMIN_EMAIL") in
  let url := confirm_url (default EmptyString (environ world0 !! "FRONTEND_URL")) token0 in
  run_background (notifications lead0 token0) world0
  = set_stdout
      ((stdout world0 +:+ fallback_text admin_subject (admin_body lead0) admin_email +:+ nl)
       +:+ fallback_text opt_in_subject (opt_in_body url) (email lead0) +:+ nl) world0.
Proof.
  apply (unconfigured_notifications_log_both lead0 token0 587%Z world0).
  - left. reflexivity.
  - reflexivity.
Defined.

(** ** The query part of the link *)

Lemma all_chars_app p s t :
  Base64.all_chars p (s +:+ t) = Base64.all_chars p s && Base64.all_chars p t.
Proof.
  induction s as [|c r IH]; [reflexivity |].
  change (String c r +:+ t) with (String c (r +:+ t)).
  cbn [Base64.all_chars]. now rewrite IH, andb_assoc.
Qed.

Lemma all_chars_cons p c r :
  Base64.all_chars p (String c r) = p c && Base64.all_chars p r.
Proof. reflexivity. Qed.

Lemma percent_clean c :
  Base64.all_chars Urllib.always_safe
    (String (Urllib.hex_digit (nat_of_ascii c / 16))
       (String (Urllib.hex_digit (nat_of_ascii c mod 16)) EmptyString)) = true.
Proof. destruct c as [[] [] [] [] [] [] [] []]; reflexivity. Qed.

Lemma quote_chars safe s :
  Base64.all_chars
    (λ c, Urllib.always_safe c || Urllib.mem c safe || Ascii.eqb c "%")
    (Urllib.quote safe s) = true.
Proof.
  induction s as [|c r IH]; [reflexivity |].
  cbn [Urllib.quote]. rewrite all_chars_app, IH, andb_true_r.
  destruct (Urllib.always_safe c || Urllib.mem c safe) eqn:Hc.
  - cbn [Base64.all_chars]. now rewrite Hc.
  - unfold Urllib.percent. rewrite all_chars_cons.
    rewrite orb_true_r. cbn [andb].
    apply (TokenFacts.all_chars_impl Urllib.always_safe); [| apply percent_clean].
    intros x ->. reflexivity.
Qed.

Lemma translate_chars (f : ascii → ascii) (p q : ascii → bool) s :
  (∀ c, p c = true → q (f c) = true) →
  Base64.all_chars p s = true → Base64.all_chars q (Base64.translate f s) = true.
Proof.
  intros Hf. induction s as [|c r IH]; [reflexivity |].
  cbn [Base64.all_chars Base64.translate]. intros [Hc Hr]%andb_prop.
  now rewrite (Hf c Hc), IH.
Qed.

Lemma quote_plus_clean s : Base64.all_chars query_clean (Urllib.quote_plus s) = true.
Proof.
  unfold Urllib.quote_plus. destruct (Urllib.mem " " s).
  - apply (translate_chars _
             (λ c, Urllib.always_safe c || Urllib.mem c " " || Ascii.eqb c "%"));
      [| apply quote_chars].
    intros c Hc. unfold Urllib.space_to_plus.
    destruct (Ascii.eqb c " ") eqn:Hspace; [reflexivity |].
    cbn [Urllib.mem] in Hc. rewrite (Ascii.eqb_sym " " c), Hspace in Hc.
    unfold query_clean.
    destruct (Urllib.always_safe c), (Ascii.eqb c "%"); cbn in Hc |- *;
      first [reflexivity | discriminate Hc].
  - apply (TokenFacts.all_chars_impl
             (λ c, Urllib.always_safe c || Urllib.mem c EmptyString || Ascii.eqb c "%"));
      [| apply quote_chars].
    intros c Hc. unfold query_clean. cbn [Urllib.mem] in Hc.
    rewrite orb_false_r in Hc. now rewrite Hc.
Qed.

Lemma clean_has_no (x : ascii) s :
  query_clean x = false → Base64.all_chars query_clean s = true → Urllib.mem x s = false.
Proof.
  intros Hx. induction s as [|c r IH]; [reflexivity |].
  cbn [Base64.all_chars Urllib.mem]. intros [Hc Hr]%andb_prop.
  rewrite (IH Hr), orb_false_r.
  destruct (Ascii.eqb_spec c x) as [-> | _]; [congruence | reflexivity].
Qed.

(** X10: with a base URL configured, the link is the base, then
    [/confirm?token=], then a query value that, whatever the token, is made
    of letters, digits, [_.-~], [%] and [+] only: it holds no [&], [=], [#],
    [?], [/] and no space, so a token cannot end the parameter, add another
    one or start a fragment. *)
Theorem confirm_url_query_is_escaped (base token : string) :
  base ≠ EmptyString →
  ∃ query,
    confirm_url base token = base +:+ "/confirm?token=" +:+ query
    ∧ query = Urllib.quote_plus token
    ∧ Base64.all_chars query_clean query = true
    ∧ Urllib.mem "&" query = false
    ∧ Urllib.mem "=" query = false
    ∧ Urllib.mem "#" query = false
    ∧ Urllib.mem "?" query = false
    ∧ Urllib.mem "/" query = false
    ∧ Urllib.mem " " query = false.
Proof.
  intros Hbase. exists (Urllib.quote_plus token).
  split; [now apply confirm_url_base |]. split; [reflexivity |].
  pose proof (quote_plus_clean token) as Hclean.
  split; [exact Hclean |].
  repeat split; apply clean_has_no; solve [reflexivity | exact Hclean].
Qed.

Lemma confirm_url_query_is_escaped_witness :
  ∃ query,
    confirm_url "https://kmu-freight.com" "a&b=c #d"
    = "https://kmu-freight.com" +:+ "/confirm?token=" +:+ query
    ∧ query = Urllib.quote_plus "a&b=c #d"
    ∧ Base64.all_chars query_clean query = true
    ∧ Urllib.mem "&" query = false
    ∧ Urllib.mem "=" query = false
    ∧ Urllib.mem "#" query = false
    ∧ Urllib.mem "?" query = false
    ∧ Urllib.mem "/" query = false
    ∧ Urllib.mem " " query = false.
Proof.
  apply (confirm_url_query_is_escaped "https://kmu-freight.com" "a&b=c #d").
  discriminate.
Defined.

Example escaped_link :
  confirm_url "https://kmu-freight.com" "a&b=c #d"
  = "https://kmu-freight.com/confirm?token=a%26b%3Dc+%23d".
Proof. vm_compute. reflexivity. Qed.

(** ** The diagnostic endpoint *)

Lemma take_chars_len n s :
  PyText.len (PyText.take_chars n s) = Nat.min n (PyText.len s).
Proof.
  revert n. induction s as [|c r IH]; intros n; cbn [PyText.take_chars PyText.len];
    [now rewrite Nat.min_0_r |].
  destruct (PyText.is_continuation c) eqn:Hc.
  - cbn [PyText.len]. rewrite Hc. apply IH.
  - destruct n as [|n]; cbn [PyText.len]; [reflexivity |]. rewrite Hc, IH. reflexivity.
Qed.

Lemma take_drop_chars n s : s = PyText.take_chars n s +:+ PyText.drop_chars n s.
Proof.
  revert n. induction s as [|c r IH]; intros n;
    cbn [PyText.take_chars PyText.drop_chars]; [reflexivity |].
  destruct (PyText.is_continuation c).
  - change (String c (PyText.take_chars n r) +:+ PyText.drop_chars n r)
      with (String c (PyText.take_chars n r +:+ PyText.drop_chars n r)).
    now rewrite <- IH.
  - destruct n as [|n]; [reflexivity |].
    change (String c (PyText.take_chars n r) +:+ PyText.drop_chars n r)
      with (String c (PyText.take_chars n r +:+ PyText.drop_chars n r)).
    now rewrite <- IH.
Qed.

Lemma drop_chars_boundary n s c rest :
  PyText.drop_chars n s = String c rest → PyText.is_continuation c = false.
Proof.
  revert n. induction s as [|x r IH]; intros n; cbn [PyText.drop_chars]; [discriminate |].
  destruct (PyText.is_continuation x) eqn:Hx; [apply IH |].
  destruct n as [|n]; [| apply IH].
  intros [= <- _]. exact Hx.
Qed.

Lemma take_chars_short n s : (PyText.len s ≤ n)%nat → PyText.take_chars n s = s.
Proof.
  revert n. induction s as [|c r IH]; intros n; cbn [PyText.take_chars PyText.len];
    [reflexivity |].
  destruct (PyText.is_continuation c).
  - intros Hlen. now rewrite IH.
  - destruct n as [|n]; [lia |]. intros Hlen. rewrite IH by lia. reflexivity.
Qed.

Lemma test_database_eq imp w :
  test_database imp w
  = (w, inr (set_database_name (Some (set_or_not (environ w !! "DATABASE_NAME")))
               (set_database_url (Some (set_or_not (environ w !! "DATABASE_URL")))
                  match probe imp initial_response with
                  | (response, None) => response
                  | (response, Some EscapedImportError) =>
                      set_database
                        "❌ Database module not found (run enable-database first)"
                        response
                  | (response, Some (EscapedException e)) =>
                      set_database
                        ("❌ Error: " +:+ PyText.take_chars 50 (Py.str_exn e)) response
                  end))).
Proof. reflexivity. Qed.

(** X11: the diagnostic endpoint never raises and changes nothing: a
    failing import, an uninitialised store and a failing listing all end in
    a report whose [backend] is the running mark. And whatever the store
    is, the report's [database_url] and [database_name] only tell whether
    [DATABASE_URL] and [DATABASE_NAME] are set to a non-empty text: what the
    probe wrote there before, the configured mark and the name of the
    store, is always overwritten. *)
Theorem test_database_reports_settings (imp : DbImport) (w : World) :
  ∃ report,
    test_database imp w = (w, inr report)
    ∧ backend report = "✅ Running"
    ∧ database_url report
      = Some (if Py.truthy (environ w !! "DATABASE_URL") then "✅ Set" else "❌ Not Set")
    ∧ database_name report
      = Some (if Py.truthy (environ w !! "DATABASE_NAME") then "✅ Set" else "❌ Not Set").
Proof.
  rewrite test_database_eq. eexists. split; [reflexivity |].
  destruct imp as [| e | [[hname [e | listed]] |]]; repeat split.
Qed.

(** X12: the report lists at most ten collections: the first ten names
    of the listing when the store is there and lists them, with the
    database line then saying connected and working, and none otherwise.
    The connection status is [Connected] exactly when the import gave a
    store that is not [None], also when its listing failed. *)
Theorem test_database_collections (imp : DbImport) (w : World) :
  ∃ report,
    test_database imp w = (w, inr report)
    ∧ (length (collections report) ≤ 10)%nat
    ∧ (∀ db names, imp = Imported (Some db) → handle_collections db = inr names →
         collections report = firstn 10 names
         ∧ database report = "✅ Connected & Working")
    ∧ ((∀ db names, imp = Imported (Some db) → handle_collections db ≠ inr names) →
         collections report = [])
    ∧ (connection_status report = "Connected" ↔ ∃ db, imp = Imported (Some db)).
Proof.
  rewrite test_database_eq. eexists. split; [reflexivity |].
  destruct imp as [| e | [[hname [e | listed]] |]]; cbn.
  - repeat split; try lia; try discriminate. intros [db Hdb]. discriminate.
  - repeat split; try lia; try discriminate. intros [db Hdb]. discriminate.
  - split; [lia |].
    split; [intros db names [= <-]; discriminate |].
    split; [reflexivity |]. split; eauto.
  - split; [rewrite length_firstn; lia |].
    split; [intros db names [= <-] [= <-]; split; reflexivity |].
    split; [| split; eauto].
    intros Hnone. exfalso. now apply (Hnone (mkDbHandle hname (inr listed)) listed).
  - repeat split; try lia; try discriminate. intros [db Hdb]. discriminate.
Qed.

(** X13: when the import raises something other than [ImportError], the
    database line of the report is the error mark, and when the listing of
    collections raises it is the connected-but-error mark, followed in both
    cases by the first 50 characters of the exception's text: the start of
    the text, cut at a character boundary after exactly 50 characters, or
    the whole text when it has no more than 50. *)
Theorem test_database_error_text (imp : DbImport) (w : World) (e : Exn) :
  imp = ImportRaises e
  ∨ (∃ db, imp = Imported (Some db) ∧ handle_collections db = inl e) →
  let text := Py.str_exn e in
  let shown := PyText.take_chars 50 text in
  let mark := match imp with
              | Imported _ => "⚠️  Connected but Error: "
              | _ => "❌ Error: "
              end in
  ∃ report,
    test_database imp w = (w, inr report)
    ∧ database report = mark +:+ shown
    ∧ text = shown +:+ PyText.drop_chars 50 text
    ∧ PyText.len shown = Nat.min 50 (PyText.len text)
    ∧ (∀ c rest, PyText.drop_chars 50 text = String c rest →
                 PyText.is_continuation c = false)
    ∧ ((PyText.len text ≤ 50)%nat → shown = text).
Proof.
  intros Hcase. cbn zeta. rewrite test_database_eq.
  eexists. split; [reflexivity |].
  split.
  { destruct Hcase as [-> | ([hname colls] & -> & Hcolls)]; [reflexivity |].
    cbn [handle_collections] in Hcolls. subst colls. reflexivity. }
  split; [apply take_drop_chars |].
  split; [apply take_chars_len |].
  split; [intros c rest; apply drop_chars_boundary | apply take_chars_short].
Qed.

Lemma test_database_error_text_witness :
  ∃ report,
    test_database (Imported (Some handle_failing)) world0 = (world0, inr report)
    ∧ database report
      = "⚠️  Connected but Error: Zeitüberschreitung: Verbindung zum Datenbankserver"
    ∧ PyText.len (PyText.take_chars 50 (Py.str_exn long_error)) = 50%nat.
Proof.
  destruct (test_database_error_text (Imported (Some handle_failing)) world0 long_error)
    as (report & Hrun & Hline & _ & Hlen & _).
  { right. exists handle_failing. split; reflexivity. }
  exists report. split; [exact Hrun |]. split; [exact Hline | exact Hlen].
Defined.

Example test_database_twelve_collections :
  (test_database (Imported (Some handle_twelve)) world0).2
  = inr (mkDiagnostics "✅ Running" "✅ Connected & Working"
           (Some "❌ Not Set") (Some "❌ Not Set") "Connected"
           ["c01"; "c02"; "c03"; "c04"; "c05"; "c06"; "c07"; "c08"; "c09"; "c10"]).
Proof. vm_compute. reflexivity. Qed.

Example test_database_cut_text :
  match (test_database (Imported (Some handle_failing)) world0).2 with
  | inr report => database report
  | inl _ => EmptyString
  end
  = "⚠️  Connected but Error: Zeitüberschreitung: Verbindung zum Datenbankserver".
Proof. vm_compute. reflexivity. Qed.
